(** * Medicine-Tracker: the depletion-forecasting engine of [app.py]

    A shallow embedding of the three computations of [src/app.py]:
    - [calculate_current_remaining] (the stock ledger reducer),
    - [predict_depletion] (the linear depletion estimator),
    - the per-medicine loop of the [/forecast] route (the seasonal
      forecast simulator).

    Conventions of the embedding.
    - The MongoDB collection [log_collection] is passed explicitly as a
      list of documents, in the order [find()] yields them.
    - Quantities are Python [int]s (both writers, [log_usage] and
      [restock_medicine], store [int(...)]): they are [Z].
    - A naive [datetime] is the number of microseconds since
      0001-01-01T00:00:00, a [Z]; [timedelta.days] is the floor division
      by the microseconds of a day.
    - The wall clock ([datetime.now()], [datetime.today()]) is an explicit
      argument.
    - Python [float]s are exact rationals [Q] where only the order and
      the sign of the values matter (the daily average, the clamp and the
      monotonicity of the walk); the walk that decides the crossing day is
      also given on binary64 floats ([walk64]), with Python's mixed
      [int]/[float] arithmetic.
    - A document is stored as BSON does: an [int] must fit 64 bits and a
      [datetime] is cut to the millisecond.
    - Python exceptions are the [Raises] constructor of [outcome]. *)

From Stdlib Require Import ZArith QArith Qround Lia Lqa List Permutation Sorted String Bool.
From Stdlib Require PrimFloat SpecFloat FloatOps.
From stdpp Require Import base gmap strings.
Import ListNotations.

Local Open Scope Z_scope.

(* ------------------------------------------------------------------ *)
(** ** Data model                                                      *)
(* ------------------------------------------------------------------ *)

(** A document of [log_collection]: [{"medicine", "quantity", "timestamp"}]. *)
Record LogEntry : Type := mkLogEntry {
  medicine : string;
  quantity : Z;
  timestamp : Z
}.

Definition INITIAL_CAPACITY_ML : Z := 100.

(** Microseconds in a day: [timedelta(days=1)]. *)
Definition US_PER_DAY : Z := 86400000000.

(** [(a - b).days]: [timedelta] normalises with a floor, as [Z.div]. *)
Definition days_between (a b : Z) : Z := (a - b) / US_PER_DAY.

(** Python's [sum(xs)]: a left fold from [0]. *)
Definition py_sum (xs : list Z) : Z := fold_left Z.add xs 0.

(** [log_collection.find({"medicine": medicine_name})]. *)
Definition find_medicine (log_collection : list LogEntry)
    (medicine_name : string) : list LogEntry :=
  List.filter (fun entry => String.eqb (medicine entry) medicine_name)
    log_collection.

(* ------------------------------------------------------------------ *)
(** ** Stock ledger reducer                                            *)
(* ------------------------------------------------------------------ *)

Definition calculate_current_remaining (log_collection : list LogEntry)
    (medicine_name : string) : Z :=
  let total_net_change_from_logs :=
    py_sum (map quantity (find_medicine log_collection medicine_name)) in
  let remaining := INITIAL_CAPACITY_ML - total_net_change_from_logs in
  remaining.

(** The mathematical sum q1 + ... + qn of the specification. *)
Fixpoint sigma (qs : list Z) : Z :=
  match qs with
  | [] => 0
  | q :: rest => q + sigma rest
  end.

(* ------------------------------------------------------------------ *)
(** ** Exceptions                                                      *)
(* ------------------------------------------------------------------ *)

(** The exceptions that the modelled code can raise; all of them are
    subclasses of Python's [Exception]. [ProphetError] stands for whatever
    the model library raises, with the text [str(e)] gives. *)
Inductive exn : Type :=
  | ZeroDivisionError
  | OverflowError
  | IndexError
  | ProphetError (msg : string).

(** [str(e)], read by the handler of [/forecast] only: the one
    [OverflowError] raised under its [try] outside the model library is
    the conversion of an [int] too large for a [float]. *)
Definition str (e : exn) : string :=
  match e with
  | ZeroDivisionError => "division by zero"
  | OverflowError => "int too large to convert to float"
  | IndexError => "list index out of range"
  | ProphetError msg => msg
  end.

Inductive outcome (A : Type) : Type :=
  | Return (a : A)
  | Raises (e : exn).
Arguments Return {A} a.
Arguments Raises {A} e.

Definition bind {A B : Type} (m : outcome A) (k : A -> outcome B) : outcome B :=
  match m with
  | Return a => k a
  | Raises e => Raises e
  end.

Notation "'let*' x ':=' m 'in' k" := (bind m (fun x => k))
  (at level 10, x name, m at level 100, k at level 200).

(* ------------------------------------------------------------------ *)
(** ** Python arithmetic and [datetime]                                *)
(* ------------------------------------------------------------------ *)

Definition Qltb (a b : Q) : bool := negb (Qle_bool b a).

(** [a / b] on two [int]s (true division). *)
Definition truediv (a b : Z) : outcome Q :=
  if b =? 0 then Raises ZeroDivisionError
  else Return (inject_Z a / inject_Z b)%Q.

(** [a / b] on two [float]s. *)
Definition fdiv (a b : Q) : outcome Q :=
  if Qeq_bool b 0 then Raises ZeroDivisionError
  else Return (a / b)%Q.

(** Python's [max(a, b)] on two arguments: [b] only when [b > a]. *)
Definition py_max (a b : Q) : Q := if Qltb a b then b else a.

(** Rounding to the nearest integer, ties to even, as [timedelta] rounds
    a fractional number of microseconds. *)
Definition round_half_even (x : Q) : Z :=
  let f := Qfloor x in
  match ((x - inject_Z f) ?= (1 # 2))%Q with
  | Lt => f
  | Gt => f + 1
  | Eq => if Z.even f then f else f + 1
  end.

(** [timedelta(days=d)] for a [float] [d], in microseconds; [timedelta]
    holds at most 999999999 days in magnitude. *)
Definition timedelta_days (d : Q) : outcome Z :=
  let us := round_half_even (d * inject_Z US_PER_DAY)%Q in
  if (-999999999 <=? us / US_PER_DAY) && (us / US_PER_DAY <=? 999999999)
  then Return us
  else Raises OverflowError.

(** [date.max.toordinal()]: the days from 0001-01-01 to 9999-12-31,
    both included. *)
Definition MAX_ORDINAL : Z := 3652059.

(** [t + delta] on a [datetime]: the result must lie between
    [datetime.min] and [datetime.max]. *)
Definition datetime_add (t delta : Z) : outcome Z :=
  let r := t + delta in
  if (0 <=? r) && (r <? MAX_ORDINAL * US_PER_DAY)
  then Return r
  else Raises OverflowError.

(** The calendar day of a [datetime], counted from 0001-01-01 as day 0;
    [strftime("%Y-%m-%d")] is a function of this number alone. *)
Definition date_of (t : Z) : Z := t / US_PER_DAY.

(* ------------------------------------------------------------------ *)
(** ** Linear depletion estimator                                      *)
(* ------------------------------------------------------------------ *)

(** The values [predict_depletion] returns. *)
Inductive DepletionEstimate : Type :=
  | NoUsageData            (* "N/A - No usage data" *)
  | AlreadyDepleted        (* "Already Depleted" *)
  | DepletionDate (day : Z) (* depletion_date.strftime("%Y-%m-%d") *)
  | NoAverageUsage.        (* "N/A - No average usage or sufficient stock" *)

(** [log_collection.find({"medicine": medicine, "quantity": {"$gt": 0}})]. *)
Definition usage_entries (log_collection : list LogEntry) (med : string)
    : list LogEntry :=
  List.filter
    (fun entry => String.eqb (medicine entry) med && (0 <? quantity entry))
    log_collection.

(** [list.sort(key=lambda x: x['timestamp'])]: a stable sort, here by
    insertion. *)
Fixpoint insert_by_timestamp (e : LogEntry) (l : list LogEntry)
    : list LogEntry :=
  match l with
  | [] => [e]
  | x :: rest =>
      if timestamp e <=? timestamp x then e :: x :: rest
      else x :: insert_by_timestamp e rest
  end.

Fixpoint sort_by_timestamp (l : list LogEntry) : list LogEntry :=
  match l with
  | [] => []
  | e :: rest => insert_by_timestamp e (sort_by_timestamp rest)
  end.

(** [l[0]]. *)
Definition index0 {A : Type} (l : list A) : outcome A :=
  match l with
  | [] => Raises IndexError
  | x :: _ => Return x
  end.

(** Lines 64-66: the elapsed whole days, with [0] replaced by [1]. *)
Definition time_span_days (now first_usage_date : Z) : Z :=
  let time_span_days := days_between now first_usage_date in
  if time_span_days =? 0 then 1 else time_span_days.

(** Lines 59-68, for a non-empty list of usage entries. *)
Definition first_usage_date (entries : list LogEntry) : outcome Z :=
  let* e := index0 (sort_by_timestamp entries) in Return (timestamp e).

Definition daily_avg_usage (entries : list LogEntry) (now : Z) : outcome Q :=
  let* first := first_usage_date entries in
  let total_usage_since_first :=
    py_sum (map quantity (sort_by_timestamp entries)) in
  truediv total_usage_since_first (time_span_days now first).

(** Lines 70-79. *)
Definition project_depletion (now : Z) (current_remaining : Z)
    (daily_avg_usage : Q) : outcome DepletionEstimate :=
  if Qltb 0 daily_avg_usage then
    let* days_to_depletion := fdiv (inject_Z current_remaining) daily_avg_usage in
    if Qltb days_to_depletion 0 then Return AlreadyDepleted
    else
      let* delta := timedelta_days days_to_depletion in
      let* depletion_date := datetime_add now delta in
      Return (DepletionDate (date_of depletion_date))
  else Return NoAverageUsage.

Definition predict_depletion (log_collection : list LogEntry) (now : Z)
    (med : string) (current_remaining : Z) : outcome DepletionEstimate :=
  match usage_entries log_collection med with
  | [] => Return NoUsageData
  | entries =>
      let* avg := daily_avg_usage entries now in
      project_depletion now current_remaining avg
  end.

(* ------------------------------------------------------------------ *)
(** ** Seasonal forecast simulator                                     *)
(* ------------------------------------------------------------------ *)

(** A row of [usage_data]: [{'ds', 'medicine', 'y'}]. *)
Record UsageRow : Type := mkUsageRow {
  u_ds : Z;
  u_medicine : string;
  u_y : Z
}.

(** A row of [forecast_result]: the columns [ds] and [yhat] that the
    route reads. *)
Record ForecastRow : Type := mkForecastRow {
  ds : Z;
  yhat : Q
}.

(** The values stored in [stock_alerts]. *)
Inductive ForecastAlert : Type :=
  | NoUsageInfo            (* "No sufficient usage data to generate forecasts." *)
  | InsufficientData       (* "Insufficient usage data for forecasting" *)
  | NeededIn (depletion_day : Z)   (* f"needed in {depletion_day} days" *)
  | AlertAlreadyDepleted   (* "already depleted" *)
  | SufficientForNow       (* "sufficient for now" *)
  | ForecastError (msg : string).  (* f"Forecast error: {str(e)}" *)

(** The text stored for every alert but [NeededIn], whose number is
    formatted by Python. *)
Definition alert_text (a : ForecastAlert) : option string :=
  match a with
  | NoUsageInfo => Some "No sufficient usage data to generate forecasts."
  | InsufficientData => Some "Insufficient usage data for forecasting"
  | NeededIn _ => None
  | AlertAlreadyDepleted => Some "already depleted"
  | SufficientForNow => Some "sufficient for now"
  | ForecastError msg => Some ("Forecast error: " ++ msg)
  end%string.

(** Lines 187-194: the rows of the log with a positive quantity. *)
Definition usage_data (all_logs : list LogEntry) : list UsageRow :=
  map (fun log => mkUsageRow (timestamp log) (medicine log) (quantity log))
    (List.filter (fun log => 0 <? quantity log) all_logs).

(** [Series.unique()]: the distinct values in order of first appearance. *)
Fixpoint unique_from (seen : list string) (l : list string) : list string :=
  match l with
  | [] => []
  | x :: rest =>
      if existsb (String.eqb x) seen then unique_from seen rest
      else x :: unique_from (x :: seen) rest
  end.

Definition unique (l : list string) : list string := unique_from [] l.

(** [df_all_usage[df_all_usage['medicine'] == med][['ds', 'y']]]. *)
Definition med_df (df_all_usage : list UsageRow) (med : string)
    : list (Z * Z) :=
  map (fun r => (u_ds r, u_y r))
    (List.filter (fun r => String.eqb (u_medicine r) med) df_all_usage).

(** [forecast_result[-14:]]. *)
Definition last14 {A : Type} (l : list A) : list A :=
  skipn (length l - 14)%nat l.

(** Lines 220-231: the walk over the future rows. The result is
    [depletion_day] ([None] for Python's [None]). *)
Fixpoint walk (today : Z) (simulated_remaining : Q)
    (rows : list ForecastRow) : option Z :=
  match rows with
  | [] => None
  | row :: rest =>
      let predicted_usage := py_max (yhat row) 0 in
      let simulated_remaining := (simulated_remaining - predicted_usage)%Q in
      if Qle_bool simulated_remaining 0 then
        let depletion_date := ds row in
        let days_until_depletion := days_between depletion_date today in
        Some days_until_depletion
      else walk today simulated_remaining rest
  end.

(** Lines 233-238. *)
Definition alert_of_depletion_day (depletion_day : option Z) : ForecastAlert :=
  match depletion_day with
  | Some d => if 0 <=? d then NeededIn d else AlertAlreadyDepleted
  | None => SufficientForNow
  end.

Definition simulate (today : Z) (current_remaining_stock : Z)
    (forecast_result : list ForecastRow) : ForecastAlert :=
  alert_of_depletion_day
    (walk today (inject_Z current_remaining_stock) (last14 forecast_result)).

Section Seasonal.

(** The model library: [Prophet(...)], [model.fit(med_df)],
    [model.make_future_dataframe(periods=14)] and [model.predict(future)]
    together, as a function of the frame that is fitted. It returns the
    forecast rows in chronological order or raises. *)
Variable prophet : list (Z * Z) -> outcome (list ForecastRow).

(** Lines 211-238: the body of the [try]. *)
Definition try_forecast (log_collection : list LogEntry) (today : Z)
    (med : string) (frame : list (Z * Z)) : outcome ForecastAlert :=
  let* forecast_result := prophet frame in
  let current_remaining_stock :=
    calculate_current_remaining log_collection med in
  Return (simulate today current_remaining_stock forecast_result).

(** Lines 205-241: the body of the loop for one medicine. The second
    component lists the frames handed to [model.fit] on the way. *)
Definition forecast_medicine (log_collection : list LogEntry) (today : Z)
    (df_all_usage : list UsageRow) (med : string)
    : ForecastAlert * list (list (Z * Z)) :=
  let frame := med_df df_all_usage med in
  if (length frame <? 2)%nat then (InsufficientData, [])
  else
    match try_forecast log_collection today med frame with
    | Return alert => (alert, [frame])
    | Raises e => (ForecastError (str e), [frame])
    end.

(** One turn of the loop of line 204 on [stock_alerts] and on the list
    of fitted frames. *)
Definition forecast_step (log_collection : list LogEntry) (today : Z)
    (df_all_usage : list UsageRow)
    (st : gmap string ForecastAlert * list (list (Z * Z))) (med : string)
    : gmap string ForecastAlert * list (list (Z * Z)) :=
  let '(alert, fitted) :=
    forecast_medicine log_collection today df_all_usage med in
  (<[med := alert]> (fst st), (snd st ++ fitted)%list).

(** The [/forecast] route: the [stock_alerts] it renders and the frames
    it fitted. *)
Definition forecast (log_collection : list LogEntry) (today : Z)
    : gmap string ForecastAlert * list (list (Z * Z)) :=
  let all_logs := log_collection in
  let df_all_usage := usage_data all_logs in
  match df_all_usage with
  | [] => ({["info"%string := NoUsageInfo]}, [])
  | _ =>
      fold_left (forecast_step log_collection today df_all_usage)
        (unique (map u_medicine df_all_usage)) (∅, [])
  end.

End Seasonal.

(* ------------------------------------------------------------------ *)
(** ** The walk on binary64 floats                                     *)
(* ------------------------------------------------------------------ *)

(** A number of the walk: [simulated_remaining] starts as the [int] of
    [calculate_current_remaining] and becomes a [float] with the first
    prediction that is not negative; [max(yhat, 0)] is the [int] 0 or the
    [float] [yhat]. *)
Inductive pynum : Type :=
  | PyInt (z : Z)
  | PyFloat (f : PrimFloat.float).

(** The [float] nearest to an [int], ties to even. *)
Definition nearest_float (z : Z) : PrimFloat.float :=
  FloatOps.SF2Prim
    (SpecFloat.binary_normalize FloatOps.prec FloatOps.emax z 0 false).

(** The conversion of an [int] operand of a mixed operation:
    [OverflowError] when the [int] is beyond the range of [float]. *)
Definition float_of_int (z : Z) : outcome PrimFloat.float :=
  let f := nearest_float z in
  if PrimFloat.is_infinity f then Raises OverflowError else Return f.

(** [a - b]. *)
Definition py_sub (a b : pynum) : outcome pynum :=
  match a, b with
  | PyInt x, PyInt y => Return (PyInt (x - y))
  | PyInt x, PyFloat g =>
      let* f := float_of_int x in Return (PyFloat (PrimFloat.sub f g))
  | PyFloat f, PyInt y =>
      let* g := float_of_int y in Return (PyFloat (PrimFloat.sub f g))
  | PyFloat f, PyFloat g => Return (PyFloat (PrimFloat.sub f g))
  end.

(** [a <= 0]. *)
Definition py_le_zero (a : pynum) : bool :=
  match a with
  | PyInt x => x <=? 0
  | PyFloat f => PrimFloat.leb f PrimFloat.zero
  end.

(** [max(yhat, 0)]: the [int] 0 only when [0 > yhat]; a NaN is kept. *)
Definition py_max_zero (yhat : PrimFloat.float) : pynum :=
  if PrimFloat.ltb yhat PrimFloat.zero then PyInt 0 else PyFloat yhat.

(** A row of [forecast_result], with [yhat] as the [float] it is. *)
Record ForecastRow64 : Type := mkForecastRow64 {
  ds64 : Z;
  yhat64 : PrimFloat.float
}.

(** Lines 220-231 on Python's numbers. *)
Fixpoint walk64 (today : Z) (simulated_remaining : pynum)
    (rows : list ForecastRow64) : outcome (option Z) :=
  match rows with
  | [] => Return None
  | row :: rest =>
      let predicted_usage := py_max_zero (yhat64 row) in
      let* simulated_remaining :=
        py_sub simulated_remaining predicted_usage in
      if py_le_zero simulated_remaining then
        let depletion_date := ds64 row in
        let days_until_depletion := days_between depletion_date today in
        Return (Some days_until_depletion)
      else walk64 today simulated_remaining rest
  end.

(** Lines 220-238 on Python's numbers. *)
Definition simulate64 (today : Z) (current_remaining_stock : Z)
    (forecast_result : list ForecastRow64) : outcome ForecastAlert :=
  let* depletion_day :=
    walk64 today (PyInt current_remaining_stock) (last14 forecast_result) in
  Return (alert_of_depletion_day depletion_day).

(** The [/forecast] route once more, for any type of forecast rows and
    any function for lines 220-238. *)
Section SeasonalWith.

Variable Row : Type.
Variable prophet : list (Z * Z) -> outcome (list Row).
Variable simulate_with : Z -> Z -> list Row -> outcome ForecastAlert.

Definition try_forecast_with (log_collection : list LogEntry) (today : Z)
    (med : string) (frame : list (Z * Z)) : outcome ForecastAlert :=
  let* forecast_result := prophet frame in
  let current_remaining_stock :=
    calculate_current_remaining log_collection med in
  simulate_with today current_remaining_stock forecast_result.

Definition forecast_medicine_with (log_collection : list LogEntry)
    (today : Z) (df_all_usage : list UsageRow) (med : string)
    : ForecastAlert * list (list (Z * Z)) :=
  let frame := med_df df_all_usage med in
  if (length frame <? 2)%nat then (InsufficientData, [])
  else
    match try_forecast_with log_collection today med frame with
    | Return alert => (alert, [frame])
    | Raises e => (ForecastError (str e), [frame])
    end.

Definition forecast_step_with (log_collection : list LogEntry) (today : Z)
    (df_all_usage : list UsageRow)
    (st : gmap string ForecastAlert * list (list (Z * Z))) (med : string)
    : gmap string ForecastAlert * list (list (Z * Z)) :=
  let '(alert, fitted) :=
    forecast_medicine_with log_collection today df_all_usage med in
  (<[med := alert]> (fst st), (snd st ++ fitted)%list).

Definition forecast_with (log_collection : list LogEntry) (today : Z)
    : gmap string ForecastAlert * list (list (Z * Z)) :=
  let all_logs := log_collection in
  let df_all_usage := usage_data all_logs in
  match df_all_usage with
  | [] => ({["info"%string := NoUsageInfo]}, [])
  | _ =>
      fold_left (forecast_step_with log_collection today df_all_usage)
        (unique (map u_medicine df_all_usage)) (∅, [])
  end.

End SeasonalWith.

(** The [/forecast] route with the walk on binary64 floats. *)
Definition forecast64 (prophet : list (Z * Z) -> outcome (list ForecastRow64))
    (log_collection : list LogEntry) (today : Z)
    : gmap string ForecastAlert * list (list (Z * Z)) :=
  forecast_with ForecastRow64 prophet simulate64 log_collection today.

(** The numbers whose conversion to [float], when an operation asks for
    it, does not raise. *)
Definition convertible (a : pynum) : Prop :=
  match a with
  | PyInt z => exists f, float_of_int z = Return f
  | PyFloat _ => True
  end.

(** *** The walk as the specification words it *)

(** The usage of a day: the prediction, and zero for a negative one. *)
Definition clamped_usage (y : PrimFloat.float) : pynum :=
  if PrimFloat.ltb y PrimFloat.zero then PyInt 0 else PyFloat y.

(** The value of a number as a [float]. *)
Definition as_float (a : pynum) : PrimFloat.float :=
  match a with
  | PyInt z => nearest_float z
  | PyFloat f => f
  end.

(** The difference of two numbers: exact on two integers, the binary64
    difference otherwise. *)
Definition number_minus (a b : pynum) : pynum :=
  match a, b with
  | PyInt x, PyInt y => PyInt (x - y)
  | _, _ => PyFloat (PrimFloat.sub (as_float a) (as_float b))
  end.

Definition at_or_below_zero (a : pynum) : bool :=
  match a with
  | PyInt x => x <=? 0
  | PyFloat f => PrimFloat.leb f PrimFloat.zero
  end.

(** [simulated_remaining] after the future days [0..k]: the walk starts
    from [current_remaining] and each day's clamped prediction is
    subtracted in turn. *)
Definition remaining_after (current_remaining : Z)
    (future : list ForecastRow64) (k : nat) : pynum :=
  fold_left (fun r row => number_minus r (clamped_usage (yhat64 row)))
    (firstn (S k) future) (PyInt current_remaining).

(* ------------------------------------------------------------------ *)
(** ** Example data                                                    *)
(* ------------------------------------------------------------------ *)

(** The instant 2026-11-04T00:00:00, in microseconds since 0001-01-01. *)
Definition example_now : Z := 739923 * US_PER_DAY.

(** [n] daily rows from [first_day] on, all with the prediction [y]. *)
Definition flat_forecast (first_day : Z) (y : Q) (n : nat)
    : list ForecastRow :=
  map (fun i => mkForecastRow (first_day + Z.of_nat i * US_PER_DAY) y)
    (seq 0 n).

(** A log with two usages of betadine (10 ml left), two of lidocaine and
    one of saline. *)
Definition example_log : list LogEntry :=
  [ mkLogEntry "betadine" 45 (example_now - 2 * US_PER_DAY);
    mkLogEntry "lidocaine" 7 (example_now - 2 * US_PER_DAY);
    mkLogEntry "betadine" 45 (example_now - US_PER_DAY);
    mkLogEntry "saline" 12 (example_now - US_PER_DAY);
    mkLogEntry "lidocaine" 3 (example_now - US_PER_DAY) ].

(** A model that fails on the frames whose first quantity is 7 and
    predicts 5 ml on each of the 14 days after [example_now] otherwise. *)
Definition example_prophet (frame : list (Z * Z))
    : outcome (list ForecastRow) :=
  match frame with
  | (_, 7) :: _ => Raises (ProphetError "fit failed")
  | _ => Return (flat_forecast (example_now + US_PER_DAY) (5 # 1) 14)
  end.

(* ------------------------------------------------------------------ *)
(** ** The two collections and the routes that write them              *)
(* ------------------------------------------------------------------ *)

(** A document of [thresholds_collection]: [{"medicine", "threshold"}]. *)
Record ThresholdDoc : Type := mkThresholdDoc {
  t_medicine : string;
  t_threshold : Z
}.

(** The database [surgical_medicine]: its two collections, each in
    insertion order. *)
Record Database : Type := mkDatabase {
  db_log : list LogEntry;
  db_thresholds : list ThresholdDoc
}.

(** [thresholds_collection.find_one({"medicine": med})]: the first
    matching document, or [None]. *)
Definition find_one (thresholds : list ThresholdDoc) (med : string)
    : option ThresholdDoc :=
  List.find (fun doc => String.eqb (t_medicine doc) med) thresholds.

(** [collection.insert_one(doc)]. *)
Definition insert_one {A : Type} (collection : list A) (doc : A) : list A :=
  (collection ++ [doc])%list.

(** The items of [DEFAULT_MEDICINE_THRESHOLDS]: every entry of the
    dictionary is commented out in the source. *)
Definition DEFAULT_MEDICINE_THRESHOLDS : list (string * Z) := [].

(** Lines 31-34, for any dictionary of defaults. *)
Definition initialize_from (defaults : list (string * Z))
    (thresholds : list ThresholdDoc) : list ThresholdDoc :=
  fold_left
    (fun thresholds item =>
       let med := fst item in
       let threshold := snd item in
       match find_one thresholds med with
       | Some _ => thresholds
       | None => insert_one thresholds (mkThresholdDoc med threshold)
       end)
    defaults thresholds.

Definition initialize_medicine_thresholds (thresholds : list ThresholdDoc)
    : list ThresholdDoc :=
  initialize_from DEFAULT_MEDICINE_THRESHOLDS thresholds.

(** The integers BSON can hold. *)
Definition INT64_MIN : Z := - 2 ^ 63.
Definition INT64_MAX : Z := 2 ^ 63 - 1.

(** The encoding of an [int]: [OverflowError] outside 64 bits. *)
Definition bson_int (z : Z) : outcome Z :=
  if (INT64_MIN <=? z) && (z <=? INT64_MAX) then Return z
  else Raises OverflowError.

(** The encoding of a [datetime]: whole milliseconds, the microseconds
    below them dropped. *)
Definition bson_datetime (t : Z) : Z := t / 1000 * 1000.

(** [log_collection.insert_one({"medicine", "quantity", "timestamp"})]:
    the document is encoded before anything is stored, so a quantity
    outside 64 bits raises and leaves the collection as it was. *)
Definition insert_log_entry (log : list LogEntry) (med : string)
    (quantity : Z) (now : Z) : outcome (list LogEntry) :=
  let* q := bson_int quantity in
  Return (insert_one log (mkLogEntry med q (bson_datetime now))).

(** Lines 147-162 of [log_usage]. The argument [matched] is the outcome
    of [re.search]: [None] when the pattern does not match, otherwise
    [match.group(1).strip()] and [int(match.group(2))], a natural number
    since group 2 is [\d+]. The result is the database after the request
    and the ["success"] field of the response, or the exception that
    leaves the route. The threshold document is written before the log
    entry is. *)
Definition log_usage (db : Database) (now : Z) (matched : option (string * N))
    : Database * outcome bool :=
  match matched with
  | Some (med, quantity) =>
      let thresholds :=
        match find_one (db_thresholds db) med with
        | Some _ => db_thresholds db
        | None => insert_one (db_thresholds db) (mkThresholdDoc med 20)
        end in
      let inserted :=
        insert_log_entry (db_log db) med (Z.of_N quantity) now in
      (mkDatabase
         (match inserted with Return log => log | Raises _ => db_log db end)
         thresholds,
       match inserted with Return _ => Return true | Raises e => Raises e end)
  | None => (db, Return false)
  end.

(** [restock_medicine]: [post] is [None] for a GET and the form fields
    [medicine] and [int(quantity)] for a POST. The result is the database
    after the request and the list [medicines] handed to the template, or
    the exception that leaves the route. *)
Definition restock_medicine (db : Database) (now : Z)
    (post : option (string * Z)) : Database * outcome (list string) :=
  match post with
  | Some (med, quantity) =>
      let inserted := insert_log_entry (db_log db) med (- quantity) now in
      (mkDatabase
         (match inserted with Return log => log | Raises _ => db_log db end)
         (db_thresholds db),
       match inserted with
       | Return _ => Return (map t_medicine (db_thresholds db))
       | Raises e => Raises e
       end)
  | None => (db, Return (map t_medicine (db_thresholds db)))
  end.

(* ------------------------------------------------------------------ *)
(** ** The [/restock] and [/buy_list] routes                           *)
(* ------------------------------------------------------------------ *)

(** [summary[med]]: the fields ["remaining"] and ["depletion_date"]. *)
Definition restock_step (log : list LogEntry) (now : Z)
    (summary : outcome (gmap string (Z * DepletionEstimate)))
    (med_data : ThresholdDoc)
    : outcome (gmap string (Z * DepletionEstimate)) :=
  let* summary := summary in
  let med := t_medicine med_data in
  let current_remaining := calculate_current_remaining log med in
  let* depletion := predict_depletion log now med current_remaining in
  Return (<[med := (current_remaining, depletion)]> summary).

(** The [/restock] route: the [summary] it renders. An exception of
    [predict_depletion] is not caught. *)
Definition restock (db : Database) (now : Z)
    : outcome (gmap string (Z * DepletionEstimate)) :=
  fold_left (restock_step (db_log db) now) (db_thresholds db) (Return ∅).

(** The entry of [summary] for a medicine whose estimate is returned. *)
Definition summary_entry (log : list LogEntry) (now : Z) (med : string)
    : option (Z * DepletionEstimate) :=
  match predict_depletion log now med (calculate_current_remaining log med) with
  | Return depletion => Some (calculate_current_remaining log med, depletion)
  | Raises _ => None
  end.

Definition YELLOW_THRESHOLD : Z := 40.
Definition ORANGE_THRESHOLD : Z := 30.
Definition RED_THRESHOLD : Z := 29.

(** The values of [item_color]. *)
Inductive Color : Type := red | orange | yellow.

(** An element of [buy_list]: [{"medicine", "remaining", "color"}]. *)
Record BuyItem : Type := mkBuyItem {
  b_medicine : string;
  b_remaining : Z;
  b_color : Color
}.

(** Lines 119-127: [None] is the [continue] of the last branch. *)
Definition item_color (current_remaining : Z) : option Color :=
  if current_remaining <=? RED_THRESHOLD then Some red
  else if current_remaining <=? ORANGE_THRESHOLD then Some orange
  else if current_remaining <=? YELLOW_THRESHOLD then Some yellow
  else None.

(** [color_priority]. *)
Definition color_priority (c : Color) : Z :=
  match c with
  | red => 1
  | orange => 2
  | yellow => 3
  end.

(** The sort key of line 137 and Python's order on pairs. *)
Definition buy_key (x : BuyItem) : Z * Z :=
  (color_priority (b_color x), b_remaining x).

Definition pair_leb (a b : Z * Z) : bool :=
  (fst a <? fst b) || ((fst a =? fst b) && (snd a <=? snd b)).

(** [list.sort(key=...)]: a stable sort, by insertion, for a key order
    given as a boolean function. *)
Fixpoint insert_by_key {A : Type} (leb : A -> A -> bool) (x : A)
    (l : list A) : list A :=
  match l with
  | [] => [x]
  | y :: rest =>
      if leb x y then x :: y :: rest else y :: insert_by_key leb x rest
  end.

Fixpoint sort_by_key {A : Type} (leb : A -> A -> bool) (l : list A)
    : list A :=
  match l with
  | [] => []
  | x :: rest => insert_by_key leb x (sort_by_key leb rest)
  end.

(** Lines 111-134: the list before it is sorted. *)
Definition buy_candidates (db : Database) : list BuyItem :=
  flat_map
    (fun med_data =>
       let med := t_medicine med_data in
       let current_remaining :=
         calculate_current_remaining (db_log db) med in
       match item_color current_remaining with
       | Some color => [mkBuyItem med current_remaining color]
       | None => []
       end)
    (db_thresholds db).

(** The [/buy_list] route: the [buy_list] it renders. *)
Definition buy_list (db : Database) : list BuyItem :=
  sort_by_key (fun x y => pair_leb (buy_key x) (buy_key y))
    (buy_candidates db).

(** The order of the sort key, as a relation. *)
Definition buy_le (x y : BuyItem) : Prop :=
  color_priority (b_color x) < color_priority (b_color y)
  \/ (color_priority (b_color x) = color_priority (b_color y)
      /\ b_remaining x <= b_remaining y).

(** A log with two usages of betadine that leave 1 ml. *)
Definition example_log64 : list LogEntry :=
  [ mkLogEntry "betadine" 50 (example_now - 2 * US_PER_DAY);
    mkLogEntry "betadine" 49 (example_now - US_PER_DAY) ].

(** The [float] 0.1. *)
Definition one_tenth : PrimFloat.float :=
  PrimFloat.div (nearest_float 1) (nearest_float 10).

(** [n] daily rows from [first_day] on, all with the prediction [y]. *)
Definition flat_forecast64 (first_day : Z) (y : PrimFloat.float) (n : nat)
    : list ForecastRow64 :=
  map (fun i => mkForecastRow64 (first_day + Z.of_nat i * US_PER_DAY) y)
    (seq 0 n).

(** A model that returns two rows for the days of the history and
    predicts 0.1 ml on each of the 14 days after [example_now]. *)
Definition example_prophet64 (frame : list (Z * Z))
    : outcome (list ForecastRow64) :=
  Return (flat_forecast64 (example_now - 2 * US_PER_DAY) (nearest_float 50) 2
          ++ flat_forecast64 (example_now + US_PER_DAY) one_tenth 14)%list.

(* ================================================================== *)
(** * Properties                                                       *)
(* ================================================================== *)

(** *** Lemmas on the reducer *)

Lemma fold_left_add_shift (xs : list Z) (a : Z) :
  fold_left Z.add xs a = a + sigma xs.
Proof.
  revert a; induction xs as [|x xs IH]; intros a; simpl.
  - lia.
  - rewrite IH. lia.
Qed.

Lemma py_sum_sigma (xs : list Z) : py_sum xs = sigma xs.
Proof. unfold py_sum. rewrite fold_left_add_shift. lia. Qed.

Lemma sigma_Permutation (xs ys : list Z) :
  Permutation xs ys -> sigma xs = sigma ys.
Proof.
  induction 1 as [| x l l' _ IH | x y l | l l' l'' _ IH1 _ IH2]; simpl; lia.
Qed.

Lemma find_medicine_Permutation (log log' : list LogEntry) (med : string) :
  Permutation log log' ->
  Permutation (find_medicine log med) (find_medicine log' med).
Proof.
  unfold find_medicine.
  induction 1 as [| x l l' _ IH | x y l | l l' l'' _ IH1 _ IH2]; simpl.
  - constructor.
  - destruct (String.eqb (medicine x) med); [constructor|]; exact IH.
  - destruct (String.eqb (medicine x) med), (String.eqb (medicine y) med);
      try apply Permutation_refl.
    apply perm_swap.
  - eapply Permutation_trans; eassumption.
Qed.

(** C1. The reducer returns [INITIAL_CAPACITY_ML] (which is 100) minus the
    sum of the quantities of the medicine's events, whatever the order in
    which the events are presented (any permutation of the log gives the
    same value), and [INITIAL_CAPACITY_ML] on the empty log. *)
Theorem calculate_current_remaining_correct :
  forall (log log' : list LogEntry) (med : string),
    Permutation log log' ->
    calculate_current_remaining log' med
      = INITIAL_CAPACITY_ML - sigma (map quantity (find_medicine log med))
    /\ calculate_current_remaining log' med
       = calculate_current_remaining log med
    /\ calculate_current_remaining [] med = INITIAL_CAPACITY_ML
    /\ INITIAL_CAPACITY_ML = 100.
Proof.
  intros log log' med Hperm.
  assert (Hs : sigma (map quantity (find_medicine log' med))
               = sigma (map quantity (find_medicine log med))).
  { apply sigma_Permutation, Permutation_map, Permutation_sym.
    now apply find_medicine_Permutation. }
  unfold calculate_current_remaining.
  rewrite !py_sum_sigma, Hs.
  repeat split; reflexivity.
Qed.

(* ------------------------------------------------------------------ *)
(** ** Rational arithmetic used by the estimators                      *)
(* ------------------------------------------------------------------ *)

Lemma Qltb_lt (a b : Q) : Qltb a b = true <-> (a < b)%Q.
Proof.
  unfold Qltb. rewrite negb_true_iff. split.
  - intros H. apply Qnot_le_lt. intros Hle.
    apply Qle_bool_iff in Hle. congruence.
  - intros H. destruct (Qle_bool b a) eqn:E; [|reflexivity].
    apply Qle_bool_iff in E. exfalso. exact (Qlt_not_le _ _ H E).
Qed.

Lemma Qltb_ge (a b : Q) : Qltb a b = false <-> (b <= a)%Q.
Proof.
  unfold Qltb. rewrite negb_false_iff. apply Qle_bool_iff.
Qed.

Lemma truediv_nonzero (a b : Z) :
  b <> 0 -> truediv a b = Return (inject_Z a / inject_Z b)%Q.
Proof.
  intros Hb. unfold truediv.
  destruct (Z.eqb_spec b 0); [contradiction | reflexivity].
Qed.

Lemma inject_Z_pos (a : Z) : 0 < a -> (0 < inject_Z a)%Q.
Proof. intros H. change 0%Q with (inject_Z 0). now rewrite <- Zlt_Qlt. Qed.

Lemma Qdiv_pos (a b : Q) : (0 < a)%Q -> (0 < b)%Q -> (0 < a / b)%Q.
Proof.
  intros Ha Hb. apply Qlt_shift_div_l; [exact Hb|]. now rewrite Qmult_0_l.
Qed.

Lemma fdiv_pos (a b : Q) : (0 < b)%Q -> fdiv a b = Return (a / b)%Q.
Proof.
  intros Hb. unfold fdiv. destruct (Qeq_bool b 0) eqn:E; [|reflexivity].
  apply Qeq_bool_iff in E. rewrite E in Hb. exfalso. exact (Qlt_irrefl _ Hb).
Qed.

(* ------------------------------------------------------------------ *)
(** ** The sort and the first usage date                               *)
(* ------------------------------------------------------------------ *)

Lemma insert_by_timestamp_Permutation (e : LogEntry) (l : list LogEntry) :
  Permutation (insert_by_timestamp e l) (e :: l).
Proof.
  induction l as [|x l IH]; simpl.
  - apply Permutation_refl.
  - destruct (timestamp e <=? timestamp x).
    + apply Permutation_refl.
    + eapply Permutation_trans; [apply perm_skip, IH | apply perm_swap].
Qed.

Lemma sort_by_timestamp_Permutation (l : list LogEntry) :
  Permutation (sort_by_timestamp l) l.
Proof.
  induction l as [|e l IH]; simpl.
  - constructor.
  - eapply Permutation_trans; [apply insert_by_timestamp_Permutation|].
    now apply perm_skip.
Qed.

(** The head of the sorted list is an entry of least timestamp. *)
Lemma sort_by_timestamp_head (l : list LogEntry) :
  l <> [] ->
  exists x rest, sort_by_timestamp l = x :: rest
    /\ In x l /\ (forall e, In e l -> timestamp x <= timestamp e).
Proof.
  induction l as [|e l IH]; [congruence|]. intros _.
  destruct l as [|e' l'].
  - exists e, []. simpl. repeat split; auto.
    intros e0 [<-|[]]. lia.
  - destruct IH as (x & rest & Hs & Hin & Hmin); [discriminate|].
    change (sort_by_timestamp (e :: e' :: l'))
      with (insert_by_timestamp e (sort_by_timestamp (e' :: l'))).
    rewrite Hs. simpl insert_by_timestamp.
    destruct (Z.leb_spec (timestamp e) (timestamp x)) as [Hle|Hgt].
    + exists e, (x :: rest). repeat split; [now left|].
      intros e0 [<-|Hin0]; [lia|]. specialize (Hmin _ Hin0). lia.
    + exists x, (insert_by_timestamp e rest). repeat split; [now right|].
      intros e0 [<-|Hin0]; [lia|]. now apply Hmin.
Qed.

Lemma first_usage_date_spec (entries : list LogEntry) :
  entries <> [] ->
  exists first, first_usage_date entries = Return first
    /\ (exists x, In x entries /\ timestamp x = first)
    /\ (forall e, In e entries -> first <= timestamp e).
Proof.
  intros Hne.
  destruct (sort_by_timestamp_head entries Hne) as (x & rest & Hs & Hin & Hmin).
  exists (timestamp x). unfold first_usage_date. rewrite Hs. simpl.
  repeat split; eauto.
Qed.

Lemma time_span_days_nonzero (now first : Z) : time_span_days now first <> 0.
Proof.
  unfold time_span_days.
  destruct (Z.eqb_spec (days_between now first) 0); lia.
Qed.

Lemma days_between_nonneg (a b : Z) : b <= a -> 0 <= days_between a b.
Proof.
  intros H. unfold days_between. apply Z.div_pos; [lia | reflexivity].
Qed.

Lemma usage_entries_In (log : list LogEntry) (med : string) (e : LogEntry) :
  In e (usage_entries log med) <->
  In e log /\ medicine e = med /\ 0 < quantity e.
Proof.
  unfold usage_entries. rewrite filter_In, andb_true_iff.
  rewrite String.eqb_eq, Z.ltb_lt. reflexivity.
Qed.

Lemma sigma_pos (qs : list Z) :
  qs <> [] -> Forall (fun q => 0 < q) qs -> 0 < sigma qs.
Proof.
  intros Hne Hall. induction Hall as [|q qs Hq Hall IH]; [congruence|].
  simpl. destruct qs as [|q' qs'].
  - simpl. lia.
  - assert (0 < sigma (q' :: qs')) by (apply IH; discriminate). lia.
Qed.

(* ------------------------------------------------------------------ *)
(** ** Linear depletion estimator: results                             *)
(* ------------------------------------------------------------------ *)

(** C6. When the log holds no event of the medicine with a positive
    quantity (the empty log included), [predict_depletion] returns the
    "N/A - No usage data" status, whatever [current_remaining] is. *)
Theorem predict_depletion_no_usage_data :
  forall (log : list LogEntry) (now : Z) (med : string) (current_remaining : Z),
    (forall e, In e log -> medicine e = med -> quantity e <= 0) ->
    predict_depletion log now med current_remaining = Return NoUsageData.
Proof.
  intros log now med current Hnone.
  unfold predict_depletion.
  destruct (usage_entries log med) as [|e rest] eqn:E; [reflexivity|].
  assert (Hin : In e (usage_entries log med)) by (rewrite E; now left).
  apply usage_entries_In in Hin. destruct Hin as (Hin & Hmed & Hq).
  specialize (Hnone e Hin Hmed). lia.
Qed.

Lemma predict_depletion_no_usage_data_witness :
  predict_depletion [] 0 "betadine" 100 = Return NoUsageData
  /\ predict_depletion [mkLogEntry "betadine" (-50) 1000] 2000 "betadine" 150
     = Return NoUsageData.
Proof.
  split.
  - apply predict_depletion_no_usage_data. intros e [].
  - apply predict_depletion_no_usage_data.
    intros e [<-|[]] _. simpl. lia.
Defined.

(** C3 (as the code has it). For a non-empty list of consumption events
    the divisor of the daily average is the number of whole days from the
    first usage to now, with 0 replaced by 1. It is never 0, so the
    division never raises; whenever the first usage is not after now it
    equals [max 1 (whole days)] and is at least 1; and it is 1 when every
    usage event carries the timestamp now. *)
Theorem time_span_days_guard :
  forall (log : list LogEntry) (med : string) (now : Z),
    usage_entries log med <> [] ->
    exists first,
      first_usage_date (usage_entries log med) = Return first
      /\ time_span_days now first <> 0
      /\ (exists avg, daily_avg_usage (usage_entries log med) now = Return avg)
      /\ (first <= now ->
          time_span_days now first = Z.max 1 (days_between now first)
          /\ 1 <= time_span_days now first)
      /\ ((forall e, In e (usage_entries log med) -> timestamp e = now) ->
          time_span_days now first = 1).
Proof.
  intros log med now Hne.
  destruct (first_usage_date_spec _ Hne) as (first & Hfirst & (x & Hx & Hts) & Hmin).
  exists first. split; [exact Hfirst|]. split; [apply time_span_days_nonzero|].
  split; [|split].
  - unfold daily_avg_usage. rewrite Hfirst. simpl.
    rewrite truediv_nonzero by apply time_span_days_nonzero. eauto.
  - intros Hle. pose proof (days_between_nonneg _ _ Hle) as Hd.
    unfold time_span_days.
    destruct (Z.eqb_spec (days_between now first) 0); lia.
  - intros Hsame. rewrite <- Hts, (Hsame _ Hx).
    unfold time_span_days, days_between. now rewrite Z.sub_diag.
Qed.

Lemma time_span_days_guard_witness :
  exists first,
    first_usage_date
      (usage_entries [mkLogEntry "betadine" 10 example_now] "betadine")
      = Return first
    /\ time_span_days example_now first = 1.
Proof.
  destruct (time_span_days_guard
              [mkLogEntry "betadine" 10 example_now] "betadine"
              example_now)
    as (first & Hfirst & _ & _ & _ & Hsame); [discriminate|].
  exists first. split; [exact Hfirst|].
  apply Hsame. intros e [<-|[]]. reflexivity.
Defined.

(** C3 as stated fails: a usage stamped one hour after now (a clock set
    back, a daylight-saving change) gives -1 whole days, which the guard
    [== 0] leaves as it is: the divisor is -1, not [max 1 (-1)]. *)
Lemma time_span_days_not_max :
  let log := [mkLogEntry "betadine" 10 (example_now + 3600000000)] in
  let first := example_now + 3600000000 in
  first_usage_date (usage_entries log "betadine") = Return first
  /\ time_span_days example_now first = -1
  /\ time_span_days example_now first
     <> Z.max 1 (days_between example_now first)
  /\ ~ 1 <= time_span_days example_now first
  /\ predict_depletion log example_now "betadine" 90
     = Return NoAverageUsage.
Proof.
  vm_compute. repeat split; congruence.
Qed.

(** C4. With a negative [current_remaining] and a positive daily average,
    [predict_depletion] returns "Already Depleted", not a date. *)
Theorem predict_depletion_already_depleted :
  forall (log : list LogEntry) (now : Z) (med : string)
         (current_remaining : Z) (avg : Q),
    daily_avg_usage (usage_entries log med) now = Return avg ->
    (0 < avg)%Q ->
    current_remaining < 0 ->
    predict_depletion log now med current_remaining = Return AlreadyDepleted.
Proof.
  intros log now med current avg Havg Hpos Hneg.
  unfold predict_depletion.
  destruct (usage_entries log med) as [|e rest] eqn:E.
  - discriminate Havg.
  - rewrite Havg. simpl. unfold project_depletion.
    assert (H0 : Qltb 0 avg = true) by now apply Qltb_lt.
    rewrite H0, fdiv_pos by exact Hpos. simpl.
    assert (Hd : Qltb (inject_Z current / avg) 0 = true).
    { apply Qltb_lt. apply Qlt_shift_div_r; [exact Hpos|].
      rewrite Qmult_0_l. change 0%Q with (inject_Z 0).
      now rewrite <- Zlt_Qlt. }
    now rewrite Hd.
Qed.

Lemma predict_depletion_already_depleted_witness :
  predict_depletion
    [mkLogEntry "betadine" 120 (example_now - 2 * US_PER_DAY)]
    example_now "betadine" (-20)
  = Return AlreadyDepleted.
Proof.
  apply (predict_depletion_already_depleted _ _ _ _ (120 # 2)).
  - vm_compute. reflexivity.
  - reflexivity.
  - lia.
Defined.

(* ------------------------------------------------------------------ *)
(** ** Rounding and the projected date                                 *)
(* ------------------------------------------------------------------ *)

Lemma round_half_even_bounds (x : Q) :
  Qfloor x <= round_half_even x <= Qfloor x + 1.
Proof.
  unfold round_half_even.
  destruct (x - inject_Z (Qfloor x) ?= 1 # 2)%Q; [destruct (Z.even _)| |]; lia.
Qed.

Lemma round_half_even_mono (x y : Q) :
  (x <= y)%Q -> round_half_even x <= round_half_even y.
Proof.
  intros Hxy.
  pose proof (Qfloor_resp_le _ _ Hxy) as Hfl.
  pose proof (round_half_even_bounds x) as Bx.
  pose proof (round_half_even_bounds y) as By.
  destruct (Z.eq_dec (Qfloor x) (Qfloor y)) as [Heq|Hneq]; [|lia].
  clear Bx By Hfl.
  assert (Hfrac : (x - inject_Z (Qfloor x) <= y - inject_Z (Qfloor x))%Q).
  { apply Qplus_le_compat; [exact Hxy | apply Qle_refl]. }
  unfold round_half_even. rewrite <- Heq.
  destruct (x - inject_Z (Qfloor x) ?= 1 # 2)%Q eqn:Cx;
    destruct (y - inject_Z (Qfloor x) ?= 1 # 2)%Q eqn:Cy;
    try (destruct (Z.even (Qfloor x))); try lia; exfalso;
    repeat match goal with
    | H : (_ ?= _)%Q = Eq |- _ => apply Qeq_alt in H
    | H : (_ ?= _)%Q = Lt |- _ => apply Qlt_alt in H
    | H : (_ ?= _)%Q = Gt |- _ => apply Qgt_alt in H
    end; lra.
Qed.

Lemma datetime_add_inv (t delta r : Z) :
  datetime_add t delta = Return r -> r = t + delta.
Proof.
  unfold datetime_add.
  destruct ((0 <=? t + delta) && (t + delta <? MAX_ORDINAL * US_PER_DAY));
    intros H; inversion H; reflexivity.
Qed.

Lemma timedelta_days_inv (d : Q) (us : Z) :
  timedelta_days d = Return us ->
  us = round_half_even (d * inject_Z US_PER_DAY)%Q.
Proof.
  unfold timedelta_days.
  match goal with |- context [if ?c then _ else _] => destruct c end;
    intros H; inversion H; reflexivity.
Qed.

(** What a date result of lines 70-77 tells about the inputs. *)
Lemma project_depletion_date_inv (now current : Z) (avg : Q) (day : Z) :
  project_depletion now current avg = Return (DepletionDate day) ->
  (0 < avg)%Q
  /\ (0 <= inject_Z current / avg)%Q
  /\ day = date_of
       (now + round_half_even (inject_Z current / avg * inject_Z US_PER_DAY)%Q).
Proof.
  unfold project_depletion.
  destruct (Qltb 0 avg) eqn:Hpos; [|discriminate].
  apply Qltb_lt in Hpos. rewrite fdiv_pos by exact Hpos. simpl.
  destruct (Qltb (inject_Z current / avg) 0) eqn:Hneg; [discriminate|].
  apply Qltb_ge in Hneg.
  destruct (timedelta_days (inject_Z current / avg)) as [us|e] eqn:Htd;
    [|discriminate].
  simpl. apply timedelta_days_inv in Htd.
  destruct (datetime_add now us) as [r|e] eqn:Hadd; [|discriminate].
  simpl. apply datetime_add_inv in Hadd. intros H. inversion H. subst.
  repeat split; assumption.
Qed.

Lemma Qdiv_le_mono_pos (a b c : Q) :
  (0 < c)%Q -> (a <= b)%Q -> (a / c <= b / c)%Q.
Proof.
  intros Hc Hab. unfold Qdiv. apply Qmult_le_compat_r; [exact Hab|].
  apply Qlt_le_weak, Qinv_lt_0_compat, Hc.
Qed.

Lemma date_of_mono (a b : Z) : a <= b -> date_of a <= date_of b.
Proof.
  intros H. unfold date_of. apply Z.div_le_mono; [reflexivity | exact H].
Qed.

Lemma project_depletion_mono (now r1 r2 : Z) (avg : Q) (d1 : Z) :
  r1 < r2 ->
  project_depletion now r1 avg = Return (DepletionDate d1) ->
  project_depletion now r2 avg <> Return AlreadyDepleted
  /\ forall d2, project_depletion now r2 avg = Return (DepletionDate d2) ->
                d1 <= d2.
Proof.
  intros Hlt H1.
  apply project_depletion_date_inv in H1. destruct H1 as (Hpos & Hnn & ->).
  assert (Hdiv : (inject_Z r1 / avg <= inject_Z r2 / avg)%Q).
  { apply Qdiv_le_mono_pos; [exact Hpos|]. rewrite <- Zle_Qle. lia. }
  split.
  - unfold project_depletion.
    assert (H0 : Qltb 0 avg = true) by now apply Qltb_lt.
    rewrite H0, fdiv_pos by exact Hpos. simpl.
    assert (Hge : Qltb (inject_Z r2 / avg) 0 = false).
    { apply Qltb_ge. eapply Qle_trans; eassumption. }
    rewrite Hge.
    destruct (timedelta_days (inject_Z r2 / avg)) as [us|e]; [|discriminate].
    simpl. destruct (datetime_add now us); discriminate.
  - intros d2 H2.
    apply project_depletion_date_inv in H2. destruct H2 as (_ & _ & ->).
    apply date_of_mono.
    assert (round_half_even (inject_Z r1 / avg * inject_Z US_PER_DAY)%Q
            <= round_half_even (inject_Z r2 / avg * inject_Z US_PER_DAY)%Q).
    { apply round_half_even_mono. apply Qmult_le_compat_r; [exact Hdiv|].
      now apply Qlt_le_weak, inject_Z_pos. }
    lia.
Qed.

(** C9 (as the code has it). For one log and one reading of the clock,
    hence one daily average, let [r1 < r2] and let [r1] give a calendar
    date. Then [r2] does not give "Already Depleted", and when [r2] gives
    a calendar date too, that date is the same day or a later day: it is
    never earlier. *)
Theorem predict_depletion_monotone :
  forall (log : list LogEntry) (now : Z) (med : string) (r1 r2 d1 : Z),
    r1 < r2 ->
    predict_depletion log now med r1 = Return (DepletionDate d1) ->
    predict_depletion log now med r2 <> Return AlreadyDepleted
    /\ forall d2,
         predict_depletion log now med r2 = Return (DepletionDate d2) ->
         d1 <= d2.
Proof.
  intros log now med r1 r2 d1 Hlt. unfold predict_depletion.
  destruct (usage_entries log med) as [|e rest]; [discriminate|].
  destruct (daily_avg_usage (e :: rest) now) as [avg|ex]; [|discriminate].
  simpl. now apply project_depletion_mono.
Qed.

Lemma predict_depletion_monotone_witness :
  predict_depletion [mkLogEntry "betadine" 20 example_now] example_now
    "betadine" 45 <> Return AlreadyDepleted
  /\ forall d2,
       predict_depletion [mkLogEntry "betadine" 20 example_now] example_now
         "betadine" 45 = Return (DepletionDate d2) ->
       739923 <= d2.
Proof.
  apply (predict_depletion_monotone
           [mkLogEntry "betadine" 20 example_now] example_now "betadine" 1 45).
  - lia.
  - vm_compute. reflexivity.
Defined.

(** C9 as stated fails: the result is a calendar day, and two stocks that
    run out on the same day get the same date. With 20 ml used per day,
    1 ml and 2 ml left both give today's date, so the date for the larger
    stock is not later. *)
Lemma predict_depletion_same_day :
  let log := [mkLogEntry "betadine" 20 example_now] in
  exists d1 d2,
    predict_depletion log example_now "betadine" 1 = Return (DepletionDate d1)
    /\ predict_depletion log example_now "betadine" 2
       = Return (DepletionDate d2)
    /\ 1 < 2
    /\ ~ d1 < d2.
Proof.
  exists 739923, 739923. repeat split; try (vm_compute; reflexivity). lia.
Qed.

Lemma predict_depletion_nonempty (log : list LogEntry) (now : Z)
    (med : string) (current_remaining : Z) :
  usage_entries log med <> [] ->
  predict_depletion log now med current_remaining
  = (let* avg := daily_avg_usage (usage_entries log med) now in
     project_depletion now current_remaining avg).
Proof.
  intros Hne. unfold predict_depletion.
  destruct (usage_entries log med); [congruence | reflexivity].
Qed.

(** With a positive usage entry and no usage stamped after now, the daily
    average is positive: [predict_depletion] does not return the
    no-average status, and it returns "Already Depleted" or a date unless
    the date arithmetic overflows. *)
Lemma predict_depletion_positive_trend :
  forall (log : list LogEntry) (now : Z) (med : string),
    usage_entries log med <> [] ->
    (forall e, In e (usage_entries log med) -> timestamp e <= now) ->
    exists avg,
      daily_avg_usage (usage_entries log med) now = Return avg
      /\ (0 < avg)%Q
      /\ forall current_remaining,
           predict_depletion log now med current_remaining
             <> Return NoAverageUsage
           /\ (predict_depletion log now med current_remaining
                 = Return AlreadyDepleted
               \/ (exists day,
                     predict_depletion log now med current_remaining
                       = Return (DepletionDate day))
               \/ predict_depletion log now med current_remaining
                    = Raises OverflowError).
Proof.
  intros log now med Hne Hpast.
  destruct (first_usage_date_spec _ Hne) as (first & Hfirst & (x & Hx & Hts) & _).
  assert (Hle : first <= now) by (rewrite <- Hts; now apply Hpast).
  assert (Hspan : 1 <= time_span_days now first).
  { pose proof (days_between_nonneg _ _ Hle). unfold time_span_days.
    destruct (Z.eqb_spec (days_between now first) 0); lia. }
  assert (Htotal : 0 < py_sum (map quantity
                                 (sort_by_timestamp (usage_entries log med)))).
  { rewrite py_sum_sigma.
    rewrite (sigma_Permutation _ (map quantity (usage_entries log med)))
      by apply Permutation_map, sort_by_timestamp_Permutation.
    apply sigma_pos.
    - destruct (usage_entries log med); [congruence | discriminate].
    - apply List.Forall_forall. intros q Hq. apply in_map_iff in Hq.
      destruct Hq as (e & <- & He). now apply usage_entries_In in He. }
  set (total := py_sum (map quantity
                         (sort_by_timestamp (usage_entries log med)))) in *.
  set (avg := (inject_Z total / inject_Z (time_span_days now first))%Q).
  assert (Havg : daily_avg_usage (usage_entries log med) now = Return avg).
  { unfold daily_avg_usage. rewrite Hfirst. cbn [bind].
    apply truediv_nonzero. lia. }
  assert (Hpos : (0 < avg)%Q) by (apply Qdiv_pos; apply inject_Z_pos; lia).
  exists avg. split; [exact Havg|]. split; [exact Hpos|].
  intros current. rewrite predict_depletion_nonempty by exact Hne.
  rewrite Havg. cbn [bind].
    unfold project_depletion.
    assert (H0 : Qltb 0 avg = true) by now apply Qltb_lt.
    rewrite H0, fdiv_pos by exact Hpos. simpl.
    destruct (Qltb (inject_Z current / avg) 0).
    + split; [discriminate | now left].
    + destruct (timedelta_days (inject_Z current / avg)) as [us|ex] eqn:Htd.
      * simpl. destruct (datetime_add now us) as [r|ex] eqn:Hadd; simpl.
        -- split; [discriminate | right; left; eauto].
        -- unfold datetime_add in Hadd.
           destruct (_ && _) in Hadd; inversion Hadd.
           split; [discriminate | now right; right].
      * simpl. unfold timedelta_days in Htd.
        destruct (_ && _) in Htd; inversion Htd.
        split; [discriminate | now right; right].
Qed.

(** C10 at a log the routes can build: one usage of 1 ml a hundred days
    ago and one restock of 30000 ml. Every timestamp is before now and the
    daily average is 1/100, yet the projected date lies after year 9999
    and [datetime.now() + timedelta(...)] raises [OverflowError]: the
    estimator returns neither a date nor "Already Depleted". *)
Theorem predict_depletion_overflow :
  let log :=
    [mkLogEntry "betadine" 1 (example_now - 100 * US_PER_DAY);
     mkLogEntry "betadine" (-30000) (example_now - 50 * US_PER_DAY)] in
  Forall (fun e => timestamp e <= example_now) log
  /\ calculate_current_remaining log "betadine" = 30099
  /\ daily_avg_usage (usage_entries log "betadine") example_now
     = Return (1 # 100)%Q
  /\ predict_depletion log example_now "betadine"
       (calculate_current_remaining log "betadine")
     = Raises OverflowError.
Proof.
  simpl. split; [|split; [|split]].
  - repeat constructor; vm_compute; discriminate.
  - reflexivity.
  - vm_compute. reflexivity.
  - vm_compute. reflexivity.
Qed.

(* ------------------------------------------------------------------ *)
(** ** Seasonal forecast simulator: the frames and the loop            *)
(* ------------------------------------------------------------------ *)

Lemma med_df_usage_entries (log : list LogEntry) (med : string) :
  med_df (usage_data log) med
  = map (fun e => (timestamp e, quantity e)) (usage_entries log med).
Proof.
  unfold med_df, usage_data, usage_entries.
  induction log as [|e log IH]; [reflexivity|]. simpl.
  destruct (0 <? quantity e) eqn:Hq; simpl.
  - destruct (String.eqb (medicine e) med); simpl; [f_equal|]; exact IH.
  - rewrite andb_false_r. exact IH.
Qed.

Lemma med_df_length (log : list LogEntry) (med : string) :
  length (med_df (usage_data log) med) = length (usage_entries log med).
Proof. rewrite med_df_usage_entries. apply length_map. Qed.

Lemma usage_data_medicines (log : list LogEntry) (med : string) :
  In med (map u_medicine (usage_data log)) <-> usage_entries log med <> [].
Proof.
  unfold usage_data. rewrite map_map. simpl. rewrite in_map_iff. split.
  - intros (e & Hmed & Hin) Hnil. apply filter_In in Hin.
    destruct Hin as [Hin Hq]. apply Z.ltb_lt in Hq.
    assert (He : In e (usage_entries log med))
      by (apply usage_entries_In; auto).
    rewrite Hnil in He. exact He.
  - intros Hne. destruct (usage_entries log med) as [|e rest] eqn:E;
      [congruence|].
    assert (He : In e (usage_entries log med)) by (rewrite E; now left).
    apply usage_entries_In in He. destruct He as (Hin & Hmed & Hq).
    exists e. split; [exact Hmed|]. apply filter_In. split; [exact Hin|].
    now apply Z.ltb_lt.
Qed.

Lemma existsb_eqb_In (x : string) (l : list string) :
  existsb (String.eqb x) l = true <-> In x l.
Proof.
  rewrite existsb_exists. split.
  - intros (y & Hin & Heq). apply String.eqb_eq in Heq. now subst.
  - intros Hin. exists x. split; [exact Hin | apply String.eqb_refl].
Qed.

Lemma unique_from_In (seen l : list string) (x : string) :
  In x (unique_from seen l) <-> In x l /\ ~ In x seen.
Proof.
  revert seen; induction l as [|y l IH]; intros seen; simpl.
  - tauto.
  - destruct (existsb (String.eqb y) seen) eqn:E.
    + apply existsb_eqb_In in E. rewrite IH. split.
      * tauto.
      * intros [[->|H] Hn]; tauto.
    + assert (Hy : ~ In y seen).
      { intros H. apply existsb_eqb_In in H. congruence. }
      simpl. rewrite IH. simpl. split.
      * intros [->|[H Hn]]; tauto.
      * intros [[->|H] Hn]; [now left|].
        destruct (String.eqb_spec y x) as [->|Hneq]; [now left|].
        right. tauto.
Qed.

Lemma unique_In (l : list string) (x : string) : In x (unique l) <-> In x l.
Proof. unfold unique. rewrite unique_from_In. simpl. tauto. Qed.

Section Loop.

Variable prophet : list (Z * Z) -> outcome (list ForecastRow).
Variables (log : list LogEntry) (today : Z) (df : list UsageRow).

Local Abbreviation body := (forecast_medicine prophet log today df).
Local Abbreviation step := (forecast_step prophet log today df).

Lemma forecast_step_fst st (med : string) :
  fst (step st med) = <[med := fst (body med)]> (fst st).
Proof.
  unfold forecast_step.
  destruct (forecast_medicine prophet log today df med). reflexivity.
Qed.

Lemma forecast_step_snd st (med : string) :
  snd (step st med) = (snd st ++ snd (body med))%list.
Proof.
  unfold forecast_step.
  destruct (forecast_medicine prophet log today df med). reflexivity.
Qed.

(** After the loop, a medicine that was iterated holds the alert of its
    own turn; any other key is as it was before the loop. *)
Lemma forecast_loop_lookup (meds : list string) st (med : string) :
  fst (fold_left step meds st) !! med
  = if existsb (String.eqb med) meds then Some (fst (body med))
    else fst st !! med.
Proof.
  revert st; induction meds as [|m meds IH]; intros st; [reflexivity|].
  simpl fold_left. rewrite IH. simpl existsb.
  destruct (existsb (String.eqb med) meds).
  - now rewrite orb_true_r.
  - rewrite orb_false_r, forecast_step_fst.
    destruct (String.eqb_spec med m) as [->|Hneq].
    + apply lookup_insert_eq.
    + apply lookup_insert_ne. congruence.
Qed.

Lemma forecast_medicine_fitted (med : string) :
  Forall (fun frame => (2 <= length frame)%nat) (snd (body med)).
Proof.
  unfold forecast_medicine.
  destruct (Nat.ltb_spec (length (med_df df med)) 2); [constructor|].
  destruct (try_forecast _ _ _ _ _); simpl; repeat constructor; lia.
Qed.

Lemma forecast_loop_fitted (meds : list string) st :
  Forall (fun frame => (2 <= length frame)%nat) (snd st) ->
  Forall (fun frame => (2 <= length frame)%nat) (snd (fold_left step meds st)).
Proof.
  revert st; induction meds as [|m meds IH]; intros st Hst; [exact Hst|].
  simpl. apply IH. rewrite forecast_step_snd.
  apply Forall_app. split; [exact Hst | apply forecast_medicine_fitted].
Qed.

End Loop.

(** The alert of a medicine that has a usage entry is the one the body of
    the loop computes for it. *)
Lemma forecast_lookup_used prophet (log : list LogEntry) (today : Z)
    (med : string) :
  usage_entries log med <> [] ->
  fst (forecast prophet log today) !! med
  = Some (fst (forecast_medicine prophet log today (usage_data log) med)).
Proof.
  intros Hne. apply usage_data_medicines in Hne.
  unfold forecast. destruct (usage_data log) as [|r rows] eqn:E; [destruct Hne|].
  rewrite forecast_loop_lookup.
  assert (H : existsb (String.eqb med) (unique (map u_medicine (r :: rows)))
              = true).
  { apply existsb_eqb_In, unique_In. exact Hne. }
  now rewrite H.
Qed.

(** A medicine without usage entry is not iterated: it gets no alert,
    unless the log has no usage at all and the medicine is named "info". *)
Lemma forecast_lookup_unused prophet (log : list LogEntry) (today : Z)
    (med : string) :
  usage_entries log med = [] ->
  fst (forecast prophet log today) !! med
  = match usage_data log with
    | [] => if String.eqb med "info" then Some NoUsageInfo else None
    | _ => None
    end.
Proof.
  intros Hnil.
  assert (Hnot : ~ In med (map u_medicine (usage_data log))).
  { intros H. apply usage_data_medicines in H. congruence. }
  unfold forecast. destruct (usage_data log) as [|r rows] eqn:E.
  - simpl. destruct (String.eqb_spec med "info") as [->|Hneq].
    + apply lookup_singleton_eq.
    + apply lookup_singleton_ne. congruence.
  - rewrite forecast_loop_lookup.
    destruct (existsb _ _) eqn:Hex; [|apply lookup_empty].
    apply existsb_eqb_In in Hex. rewrite unique_In in Hex. destruct (Hnot Hex).
Qed.

Lemma forecast_fitted prophet (log : list LogEntry) (today : Z) :
  Forall (fun frame => (2 <= length frame)%nat)
    (snd (forecast prophet log today)).
Proof.
  unfold forecast. destruct (usage_data log); [constructor|].
  apply forecast_loop_fitted. constructor.
Qed.

Lemma forecast_medicine_fit prophet (log : list LogEntry) (today : Z)
    (df : list UsageRow) (med : string) :
  (2 <= length (med_df df med))%nat ->
  forecast_medicine prophet log today df med
  = match prophet (med_df df med) with
    | Return rows =>
        (simulate today (calculate_current_remaining log med) rows,
         [med_df df med])
    | Raises e => (ForecastError (str e), [med_df df med])
    end.
Proof.
  intros Hlen. unfold forecast_medicine, try_forecast.
  destruct (Nat.ltb_spec (length (med_df df med)) 2); [lia|].
  destruct (prophet (med_df df med)); reflexivity.
Qed.

Lemma forecast_lookup_fit prophet (log : list LogEntry) (today : Z)
    (med : string) (rows : list ForecastRow) :
  (2 <= length (usage_entries log med))%nat ->
  prophet (med_df (usage_data log) med) = Return rows ->
  fst (forecast prophet log today) !! med
  = Some (simulate today (calculate_current_remaining log med) rows).
Proof.
  intros Hlen Hfit.
  rewrite forecast_lookup_used
    by (destruct (usage_entries log med); [simpl in Hlen; lia | discriminate]).
  rewrite forecast_medicine_fit by (rewrite med_df_length; exact Hlen).
  now rewrite Hfit.
Qed.

Lemma forecast_lookup_raise prophet (log : list LogEntry) (today : Z)
    (med : string) (e : exn) :
  (2 <= length (usage_entries log med))%nat ->
  prophet (med_df (usage_data log) med) = Raises e ->
  fst (forecast prophet log today) !! med = Some (ForecastError (str e)).
Proof.
  intros Hlen Hfit.
  rewrite forecast_lookup_used
    by (destruct (usage_entries log med); [simpl in Hlen; lia | discriminate]).
  rewrite forecast_medicine_fit by (rewrite med_df_length; exact Hlen).
  now rewrite Hfit.
Qed.

(* ------------------------------------------------------------------ *)
(** ** Seasonal forecast simulator: the walk                           *)
(* ------------------------------------------------------------------ *)

Lemma Qle_bool_false (x : Q) : (0 < x)%Q -> Qle_bool x 0 = false.
Proof.
  intros H. destruct (Qle_bool x 0) eqn:E; [|reflexivity].
  apply Qle_bool_iff in E. exfalso. exact (Qlt_not_le _ _ H E).
Qed.

Lemma py_max_negative (y : Q) : (y < 0)%Q -> py_max y 0 = 0%Q.
Proof. intros H. unfold py_max. apply Qltb_lt in H. now rewrite H. Qed.

Lemma walk_negative_predictions (today : Z) (future : list ForecastRow) :
  forall sim : Q,
    (0 < sim)%Q ->
    Forall (fun row => (yhat row < 0)%Q) future ->
    walk today sim future = None.
Proof.
  induction future as [|r rest IH]; intros sim Hpos Hneg; [reflexivity|].
  inversion Hneg as [|? ? Hr Hrest]; subst. simpl.
  rewrite (py_max_negative _ Hr).
  assert (H0 : (0 < sim - 0)%Q) by lra.
  rewrite (Qle_bool_false _ H0). now apply IH.
Qed.

(* ------------------------------------------------------------------ *)
(** ** Seasonal forecast simulator: results                            *)
(* ------------------------------------------------------------------ *)

(** *** The route for any walk *)

Section LoopWith.

Variable Row : Type.
Variable prophet : list (Z * Z) -> outcome (list Row).
Variable simulate_with : Z -> Z -> list Row -> outcome ForecastAlert.
Variables (log : list LogEntry) (today : Z) (df : list UsageRow).

Local Abbreviation body_with :=
  (forecast_medicine_with Row prophet simulate_with log today df).
Local Abbreviation step_with :=
  (forecast_step_with Row prophet simulate_with log today df).

Lemma forecast_step_with_fst st (med : string) :
  fst (step_with st med) = <[med := fst (body_with med)]> (fst st).
Proof.
  unfold forecast_step_with.
  destruct (forecast_medicine_with Row prophet simulate_with log today df med).
  reflexivity.
Qed.

Lemma forecast_loop_with_lookup (meds : list string) st (med : string) :
  fst (fold_left step_with meds st) !! med
  = if existsb (String.eqb med) meds then Some (fst (body_with med))
    else fst st !! med.
Proof.
  revert st; induction meds as [|m meds IH]; intros st; [reflexivity|].
  cbn [fold_left]. rewrite IH. simpl existsb.
  destruct (existsb (String.eqb med) meds).
  - now rewrite orb_true_r.
  - rewrite orb_false_r, forecast_step_with_fst.
    destruct (String.eqb_spec med m) as [->|Hneq].
    + apply lookup_insert_eq.
    + apply lookup_insert_ne. congruence.
Qed.

End LoopWith.

Lemma forecast_with_lookup_fit (Row : Type)
    (prophet : list (Z * Z) -> outcome (list Row))
    (simulate_with : Z -> Z -> list Row -> outcome ForecastAlert)
    (log : list LogEntry) (today : Z) (med : string) (rows : list Row) :
  (2 <= length (usage_entries log med))%nat ->
  prophet (med_df (usage_data log) med) = Return rows ->
  fst (forecast_with Row prophet simulate_with log today) !! med
  = Some match simulate_with today
                 (calculate_current_remaining log med) rows with
         | Return alert => alert
         | Raises e => ForecastError (str e)
         end.
Proof.
  intros Hlen Hfit.
  assert (Hin : In med (map u_medicine (usage_data log))).
  { apply usage_data_medicines.
    destruct (usage_entries log med); [simpl in Hlen; lia | discriminate]. }
  assert (Hbody :
            fst (forecast_medicine_with Row prophet simulate_with log today
                   (usage_data log) med)
            = match simulate_with today
                      (calculate_current_remaining log med) rows with
              | Return alert => alert
              | Raises e => ForecastError (str e)
              end).
  { unfold forecast_medicine_with, try_forecast_with.
    rewrite med_df_length.
    destruct (Nat.ltb_spec (length (usage_entries log med)) 2); [lia|].
    rewrite Hfit. cbn [bind].
    now destruct (simulate_with today (calculate_current_remaining log med)
                    rows). }
  rewrite <- Hbody. clear Hbody Hfit.
  unfold forecast_with.
  destruct (usage_data log) as [|r rows'] eqn:E; [destruct Hin|].
  rewrite forecast_loop_with_lookup.
  assert (Hex : existsb (String.eqb med) (unique (map u_medicine (r :: rows')))
                = true).
  { apply existsb_eqb_In, unique_In. exact Hin. }
  now rewrite Hex.
Qed.

(** *** The walk on binary64 floats *)

Lemma float_of_int_nearest (z : Z) (f : PrimFloat.float) :
  float_of_int z = Return f -> f = nearest_float z.
Proof.
  unfold float_of_int.
  destruct (PrimFloat.is_infinity (nearest_float z)); [discriminate|].
  intros H. now inversion H.
Qed.

Lemma float_of_int_zero : float_of_int 0 = Return (nearest_float 0).
Proof. vm_compute. reflexivity. Qed.

(** One day of the walk: the code's subtraction of [max(yhat, 0)] is the
    difference with the clamped usage, and it does not raise when the
    stock converts. *)
Lemma py_sub_clamped (a : pynum) (y : PrimFloat.float) :
  convertible a ->
  py_sub a (py_max_zero y) = Return (number_minus a (clamped_usage y))
  /\ convertible (number_minus a (clamped_usage y)).
Proof.
  intros Hconv. unfold py_max_zero, clamped_usage.
  destruct (PrimFloat.ltb y PrimFloat.zero); destruct a as [z|f];
    unfold py_sub, number_minus, as_float; cbn [convertible] in *.
  - split; [reflexivity|]. now rewrite Z.sub_0_r.
  - rewrite float_of_int_zero. split; [reflexivity | exact I].
  - destruct Hconv as (f & Hf). rewrite Hf. cbn [bind].
    rewrite (float_of_int_nearest _ _ Hf). split; [reflexivity | exact I].
  - split; [reflexivity | exact I].
Qed.

Lemma py_le_zero_spec (a : pynum) : py_le_zero a = at_or_below_zero a.
Proof. now destruct a. Qed.

(** The walk stops at the first day whose running remainder is at or
    below zero and reports the whole days from today to that day. *)
Lemma walk64_crossing (today : Z) (future : list ForecastRow64) :
  forall (sim : pynum) (k : nat) (row : ForecastRow64),
    convertible sim ->
    nth_error future k = Some row ->
    at_or_below_zero
      (fold_left (fun r row => number_minus r (clamped_usage (yhat64 row)))
         (firstn (S k) future) sim) = true ->
    (forall j, (j < k)%nat ->
       at_or_below_zero
         (fold_left (fun r row => number_minus r (clamped_usage (yhat64 row)))
            (firstn (S j) future) sim) = false) ->
    walk64 today sim future = Return (Some (days_between (ds64 row) today)).
Proof.
  induction future as [|r rest IH]; intros sim k row Hconv Hnth Hle Hbefore.
  - destruct k; discriminate.
  - destruct (py_sub_clamped sim (yhat64 r) Hconv) as [Hsub Hconv'].
    cbn [walk64]. rewrite Hsub. cbn [bind]. rewrite py_le_zero_spec.
    destruct k as [|k]; simpl in Hnth.
    + inversion Hnth; subst. simpl in Hle. now rewrite Hle.
    + assert (H0 : at_or_below_zero
                     (number_minus sim (clamped_usage (yhat64 r))) = false)
        by (apply (Hbefore 0%nat); lia).
      rewrite H0. apply (IH _ k); [exact Hconv' | exact Hnth | exact Hle |].
      intros j Hj. apply (Hbefore (S j)). lia.
Qed.

Lemma walk64_no_crossing (today : Z) (future : list ForecastRow64) :
  forall sim : pynum,
    convertible sim ->
    (forall k, (k < length future)%nat ->
       at_or_below_zero
         (fold_left (fun r row => number_minus r (clamped_usage (yhat64 row)))
            (firstn (S k) future) sim) = false) ->
    walk64 today sim future = Return None.
Proof.
  induction future as [|r rest IH]; intros sim Hconv Hall; [reflexivity|].
  destruct (py_sub_clamped sim (yhat64 r) Hconv) as [Hsub Hconv'].
  cbn [walk64]. rewrite Hsub. cbn [bind]. rewrite py_le_zero_spec.
  assert (H0 : at_or_below_zero
                 (number_minus sim (clamped_usage (yhat64 r))) = false)
    by (apply (Hall 0%nat); simpl; lia).
  rewrite H0. apply IH; [exact Hconv'|].
  intros k Hk. apply (Hall (S k)). simpl. lia.
Qed.

(** The last 14 rows of a forecast are its 14 future days. *)
Lemma last14_future {A : Type} (history future : list A) :
  length future = 14%nat -> last14 (history ++ future) = future.
Proof.
  intros Hlen. unfold last14. rewrite length_app, Hlen.
  replace (length history + 14 - 14)%nat with (length history) by lia.
  induction history as [|h history IH]; [reflexivity | exact IH].
Qed.

(** C2. Let a medicine have at least two usage observations and let the
    model return a forecast, the rows of the history followed by the 14
    future days. For every [current_remaining] (one that converts to a
    float), the walk starts from [current_remaining] and subtracts, day
    after day in the order of the 14 future rows, the prediction clamped
    at zero, in Python's arithmetic (binary64 once a float is involved).
    At the first day whose running remainder is at or below zero the walk
    stops: the result is "needed in d days" when the whole days [d] from
    today to that day are at least 0, and "already depleted" otherwise.
    When none of the 14 days crosses, the result is "sufficient for now".
    The alert the route stores for the medicine is the result of this
    walk at [calculate_current_remaining]. *)
Theorem forecast_walk_binary64 :
  forall (prophet : list (Z * Z) -> outcome (list ForecastRow64))
         (log : list LogEntry) (today : Z) (med : string)
         (history future : list ForecastRow64),
    (2 <= length (usage_entries log med))%nat ->
    length future = 14%nat ->
    prophet (med_df (usage_data log) med) = Return (history ++ future)%list ->
    (forall current_remaining : Z,
       (exists f, float_of_int current_remaining = Return f) ->
       (forall k row,
          nth_error future k = Some row ->
          at_or_below_zero (remaining_after current_remaining future k)
            = true ->
          (forall j, (j < k)%nat ->
             at_or_below_zero (remaining_after current_remaining future j)
               = false) ->
          simulate64 today current_remaining (history ++ future)
          = Return (if 0 <=? days_between (ds64 row) today
                    then NeededIn (days_between (ds64 row) today)
                    else AlertAlreadyDepleted))
       /\ ((forall k, (k < 14)%nat ->
              at_or_below_zero (remaining_after current_remaining future k)
                = false) ->
           simulate64 today current_remaining (history ++ future)
           = Return SufficientForNow))
    /\ fst (forecast64 prophet log today) !! med
       = Some match simulate64 today (calculate_current_remaining log med)
                      (history ++ future) with
              | Return alert => alert
              | Raises e => ForecastError (str e)
              end.
Proof.
  intros prophet log today med history future Hlen H14 Hfit. split.
  - intros current Hconv. unfold simulate64.
    rewrite (last14_future history future H14). split.
    + intros k row Hnth Hle Hbefore.
      now rewrite (walk64_crossing today future (PyInt current) k row
                     Hconv Hnth Hle Hbefore).
    + intros Hall.
      rewrite (walk64_no_crossing today future (PyInt current) Hconv);
        [reflexivity|].
      intros k Hk. apply Hall. lia.
  - unfold forecast64. now apply forecast_with_lookup_fit.
Qed.

(** C8. A negative prediction counts as zero usage, so a walk over
    negative predictions only, started from a positive stock, finds no
    crossing day: the alert is "sufficient for now". *)
Theorem forecast_negative_predictions :
  forall (prophet : list (Z * Z) -> outcome (list ForecastRow))
         (log : list LogEntry) (today : Z) (med : string)
         (rows : list ForecastRow) (current_remaining : Z),
    0 < current_remaining ->
    Forall (fun row => (yhat row < 0)%Q) (last14 rows) ->
    (forall row, In row (last14 rows) -> py_max (yhat row) 0 = 0%Q)
    /\ walk today (inject_Z current_remaining) (last14 rows) = None
    /\ simulate today current_remaining rows = SufficientForNow
    /\ ((2 <= length (usage_entries log med))%nat ->
        prophet (med_df (usage_data log) med) = Return rows ->
        calculate_current_remaining log med = current_remaining ->
        fst (forecast prophet log today) !! med = Some SufficientForNow).
Proof.
  intros prophet log today med rows current Hpos Hneg.
  assert (Hwalk : walk today (inject_Z current) (last14 rows) = None).
  { apply walk_negative_predictions; [now apply inject_Z_pos | exact Hneg]. }
  assert (Hsim : simulate today current rows = SufficientForNow).
  { unfold simulate. now rewrite Hwalk. }
  split; [|split; [exact Hwalk | split; [exact Hsim|]]].
  - intros row Hin. apply py_max_negative.
    rewrite List.Forall_forall in Hneg. now apply Hneg.
  - intros Hlen Hfit Hcur.
    rewrite (forecast_lookup_fit prophet log today med rows Hlen Hfit).
    now rewrite Hcur, Hsim.
Qed.

(** C5. When the model raises for a medicine, the route stores for it the
    alert "Forecast error: " followed by the text of the exception; the
    route still gives an alert to every medicine that has a usage entry;
    and the alert of any medicine is the same under two model behaviours
    that agree on that medicine's own frame, so a failure on another
    medicine's frame does not change it. *)
Theorem forecast_failure_contained :
  forall (prophet : list (Z * Z) -> outcome (list ForecastRow))
         (log : list LogEntry) (today : Z) (med : string) (e : exn),
    (2 <= length (usage_entries log med))%nat ->
    prophet (med_df (usage_data log) med) = Raises e ->
    fst (forecast prophet log today) !! med = Some (ForecastError (str e))
    /\ alert_text (ForecastError (str e))
       = Some ("Forecast error: " ++ str e)%string
    /\ (forall other, usage_entries log other <> [] ->
          exists alert, fst (forecast prophet log today) !! other = Some alert)
    /\ (forall (prophet' : list (Z * Z) -> outcome (list ForecastRow))
               (other : string),
          prophet' (med_df (usage_data log) other)
            = prophet (med_df (usage_data log) other) ->
          fst (forecast prophet' log today) !! other
            = fst (forecast prophet log today) !! other).
Proof.
  intros prophet log today med e Hlen Hfit.
  split; [now apply forecast_lookup_raise|].
  split; [reflexivity|]. split.
  - intros other Hne. rewrite forecast_lookup_used by exact Hne. eauto.
  - intros prophet' other Hagree.
    destruct (usage_entries log other) as [|x rest] eqn:E.
    + now rewrite !forecast_lookup_unused by exact E.
    + rewrite !forecast_lookup_used by (rewrite E; discriminate).
      f_equal. unfold forecast_medicine, try_forecast.
      destruct (length (med_df (usage_data log) other) <? 2)%nat;
        [reflexivity|].
      now rewrite Hagree.
Qed.

(** C7. With fewer than two usage observations of the medicine (none or
    one), the body of the loop gives "Insufficient usage data for
    forecasting" and hands nothing to the model, whatever the model would
    do; with exactly one observation this is the alert the route stores;
    and the route never fits a frame of fewer than two rows, so the
    medicine's frame is not among the fitted ones. *)
Theorem forecast_insufficient_data :
  forall (prophet : list (Z * Z) -> outcome (list ForecastRow))
         (log : list LogEntry) (today : Z) (med : string),
    (length (usage_entries log med) < 2)%nat ->
    forecast_medicine prophet log today (usage_data log) med
      = (InsufficientData, [])
    /\ (length (usage_entries log med) = 1%nat ->
        fst (forecast prophet log today) !! med = Some InsufficientData)
    /\ ~ In (med_df (usage_data log) med) (snd (forecast prophet log today)).
Proof.
  intros prophet log today med Hlen.
  assert (Hbody : forecast_medicine prophet log today (usage_data log) med
                  = (InsufficientData, [])).
  { unfold forecast_medicine. rewrite med_df_length.
    destruct (Nat.ltb_spec (length (usage_entries log med)) 2);
      [reflexivity | lia]. }
  split; [exact Hbody|]. split.
  - intros Hone. rewrite forecast_lookup_used.
    + now rewrite Hbody.
    + destruct (usage_entries log med); [discriminate Hone | discriminate].
  - intros Hin.
    pose proof (forecast_fitted prophet log today) as Hall.
    rewrite List.Forall_forall in Hall. specialize (Hall _ Hin).
    rewrite med_df_length in Hall. lia.
Qed.

(* ------------------------------------------------------------------ *)
(** ** The theorems at concrete inputs                                 *)
(* ------------------------------------------------------------------ *)

Lemma calculate_current_remaining_correct_witness :
  calculate_current_remaining
    [mkLogEntry "betadine" (-50) 6; mkLogEntry "betadine" 10 0;
     mkLogEntry "betadine" 10 5] "betadine" = 130.
Proof.
  destruct (calculate_current_remaining_correct
              [mkLogEntry "betadine" 10 0; mkLogEntry "betadine" (-50) 6;
               mkLogEntry "betadine" 10 5]
              [mkLogEntry "betadine" (-50) 6; mkLogEntry "betadine" 10 0;
               mkLogEntry "betadine" 10 5]
              "betadine" (perm_swap _ _ _)) as [H _].
  rewrite H. reflexivity.
Defined.

Lemma forecast_walk_binary64_witness :
  fst (forecast64 example_prophet64 example_log64 example_now) !! "betadine"
  = Some (NeededIn 11).
Proof.
  destruct (forecast_walk_binary64 example_prophet64 example_log64
              example_now "betadine"
              (flat_forecast64 (example_now - 2 * US_PER_DAY)
                 (nearest_float 50) 2)
              (flat_forecast64 (example_now + US_PER_DAY) one_tenth 14))
    as [Hwalk Hlookup].
  - vm_compute. lia.
  - reflexivity.
  - reflexivity.
  - rewrite Hlookup.
    destruct (Hwalk (calculate_current_remaining example_log64 "betadine"))
      as [Hcross _].
    + eexists. vm_compute. reflexivity.
    + rewrite (Hcross 10%nat
                 (mkForecastRow64 (example_now + 11 * US_PER_DAY) one_tenth)).
      * reflexivity.
      * reflexivity.
      * vm_compute. reflexivity.
      * intros j Hj.
        do 10 (destruct j as [|j]; [vm_compute; reflexivity|]). lia.
Defined.

Lemma forecast_failure_contained_witness :
  fst (forecast example_prophet example_log example_now) !! "lidocaine"
  = Some (ForecastError "fit failed").
Proof.
  destruct (forecast_failure_contained example_prophet example_log
              example_now "lidocaine" (ProphetError "fit failed"))
    as [Hlookup _].
  - vm_compute. lia.
  - reflexivity.
  - exact Hlookup.
Defined.

Lemma forecast_insufficient_data_witness :
  forecast_medicine example_prophet example_log example_now
    (usage_data example_log) "saline" = (InsufficientData, []).
Proof.
  destruct (forecast_insufficient_data example_prophet example_log
              example_now "saline") as [Hbody _].
  - vm_compute. lia.
  - exact Hbody.
Defined.

Lemma forecast_negative_predictions_witness :
  simulate example_now 5 (flat_forecast (example_now + US_PER_DAY) (-3 # 1) 14)
  = SufficientForNow.
Proof.
  destruct (forecast_negative_predictions example_prophet example_log
              example_now "betadine"
              (flat_forecast (example_now + US_PER_DAY) (-3 # 1) 14) 5)
    as (_ & _ & Hsim & _).
  - lia.
  - repeat constructor.
  - exact Hsim.
Defined.

(* ------------------------------------------------------------------ *)
(** ** The collections: thresholds                                     *)
(* ------------------------------------------------------------------ *)

Lemma find_one_None (thresholds : list ThresholdDoc) (med : string) :
  find_one thresholds med = None <-> ~ In med (map t_medicine thresholds).
Proof.
  unfold find_one. induction thresholds as [|d th IH]; simpl.
  - tauto.
  - destruct (String.eqb_spec (t_medicine d) med) as [Heq|Hneq].
    + split; [discriminate | intros H; exfalso; apply H; now left].
    + rewrite IH. tauto.
Qed.

Lemma find_one_app_l (th added : list ThresholdDoc) (med : string)
    (doc : ThresholdDoc) :
  find_one th med = Some doc -> find_one (th ++ added) med = Some doc.
Proof.
  unfold find_one. induction th as [|d th IH]; simpl; [discriminate|].
  destruct (String.eqb (t_medicine d) med); [trivial | exact IH].
Qed.

Lemma NoDup_snoc {A : Type} (l : list A) (x : A) :
  List.NoDup l -> ~ In x l -> List.NoDup (l ++ [x]).
Proof.
  induction l as [|y l IH]; intros Hnd Hin; simpl.
  - constructor; [intros [] | constructor].
  - inversion Hnd as [|? ? Hy Hl]; subst. constructor.
    + rewrite in_app_iff. simpl. intros [H|[H|[]]]; [tauto|].
      apply Hin. now left.
    + apply IH; [exact Hl|]. intros H. apply Hin. now right.
Qed.

(** One turn of the loop of [initialize_medicine_thresholds]. *)
Lemma initialize_step (th : list ThresholdDoc) (med : string) (t : Z) :
  exists added,
    match find_one th med with
    | Some _ => th
    | None => insert_one th (mkThresholdDoc med t)
    end = (th ++ added)%list
    /\ In med (map t_medicine (th ++ added))
    /\ (List.NoDup (map t_medicine th) ->
        List.NoDup (map t_medicine (th ++ added))).
Proof.
  destruct (find_one th med) as [d|] eqn:E.
  - exists []. rewrite app_nil_r. repeat split; [|trivial].
    destruct (in_dec string_dec med (map t_medicine th)) as [H|H]; [exact H|].
    apply find_one_None in H. congruence.
  - exists [mkThresholdDoc med t]. unfold insert_one. repeat split.
    + rewrite map_app, in_app_iff. right. now left.
    + intros Hnd. rewrite map_app. simpl. apply NoDup_snoc; [exact Hnd|].
      now apply find_one_None.
Qed.

Lemma initialize_from_grows (defaults : list (string * Z)) :
  forall th : list ThresholdDoc,
    exists added,
      initialize_from defaults th = (th ++ added)%list
      /\ (forall med t, In (med, t) defaults ->
            In med (map t_medicine (th ++ added)))
      /\ (List.NoDup (map t_medicine th) ->
        List.NoDup (map t_medicine (th ++ added))).
Proof.
  induction defaults as [|[med t] defaults IH]; intros th.
  - exists []. rewrite app_nil_r. repeat split; [intros ? ? [] | trivial].
  - simpl. destruct (initialize_step th med t) as (a1 & E1 & Hin1 & Hnd1).
    rewrite E1.
    destruct (IH (th ++ a1)%list) as (a2 & E2 & Hin2 & Hnd2).
    exists (a1 ++ a2)%list. rewrite app_assoc. repeat split.
    + exact E2.
    + intros m t' [Heq|Hin].
      * inversion Heq; subst. rewrite map_app, in_app_iff. now left.
      * now apply (Hin2 m t').
    + intros Hnd. apply Hnd2, Hnd1, Hnd.
Qed.

Lemma initialize_from_fixed (defaults : list (string * Z)) :
  forall th : list ThresholdDoc,
    (forall med t, In (med, t) defaults -> In med (map t_medicine th)) ->
    initialize_from defaults th = th.
Proof.
  induction defaults as [|[med t] defaults IH]; intros th Hall; [reflexivity|].
  simpl. destruct (find_one th med) as [d|] eqn:E.
  - apply IH. intros m t' Hin. apply (Hall m t'). now right.
  - exfalso. apply find_one_None in E. apply E, (Hall med t). now left.
Qed.

(** X1. [initialize_medicine_thresholds], for any dictionary of defaults:
    the documents already stored are kept, in place and unchanged, and
    the lookup of a medicine that had a document still returns that
    document; afterwards every default medicine has a document; no second
    document is created for a medicine; and running it again changes
    nothing. With the dictionary of the source, which is empty, the
    collection is left as it is. *)
Theorem initialize_medicine_thresholds_spec :
  forall (defaults : list (string * Z)) (th : list ThresholdDoc),
    (exists added, initialize_from defaults th = (th ++ added)%list)
    /\ (forall med doc, find_one th med = Some doc ->
          find_one (initialize_from defaults th) med = Some doc)
    /\ (forall med t, In (med, t) defaults ->
          find_one (initialize_from defaults th) med <> None)
    /\ (List.NoDup (map t_medicine th) ->
        List.NoDup (map t_medicine (initialize_from defaults th)))
    /\ initialize_from defaults (initialize_from defaults th)
       = initialize_from defaults th
    /\ initialize_medicine_thresholds th = th.
Proof.
  intros defaults th.
  destruct (initialize_from_grows defaults th) as (added & E & Hin & Hnd).
  split; [eauto|]. split; [|split; [|split; [|split]]].
  - intros med doc Hfound. rewrite E. now apply find_one_app_l.
  - intros med t Hd Hnone. apply find_one_None in Hnone.
    apply Hnone. rewrite E. now apply (Hin med t).
  - intros H. rewrite E. now apply Hnd.
  - apply initialize_from_fixed. intros med t Hd. rewrite E.
    now apply (Hin med t).
  - reflexivity.
Qed.

Lemma initialize_medicine_thresholds_spec_witness :
  List.NoDup (map t_medicine
           (initialize_from [("betadine", 20); ("lidocaine", 15)]%string
              [mkThresholdDoc "lidocaine" 5])).
Proof.
  destruct (initialize_medicine_thresholds_spec
              [("betadine", 20); ("lidocaine", 15)]%string
              [mkThresholdDoc "lidocaine" 5]) as (_ & _ & _ & Hnd & _).
  apply Hnd. repeat constructor. intros [].
Defined.

(* ------------------------------------------------------------------ *)
(** ** The routes that write: [log_usage] and [restock_medicine]       *)
(* ------------------------------------------------------------------ *)

Lemma find_medicine_app (l1 l2 : list LogEntry) (med : string) :
  find_medicine (l1 ++ l2) med
  = (find_medicine l1 med ++ find_medicine l2 med)%list.
Proof. unfold find_medicine. apply List.filter_app. Qed.

(** The stock of a medicine after one more document in the log. *)
Lemma calculate_current_remaining_insert (log : list LogEntry)
    (e : LogEntry) (med : string) :
  calculate_current_remaining (insert_one log e) med
  = if String.eqb (medicine e) med
    then calculate_current_remaining log med - quantity e
    else calculate_current_remaining log med.
Proof.
  unfold calculate_current_remaining, insert_one.
  rewrite find_medicine_app, map_app, !py_sum_sigma.
  unfold find_medicine at 2. simpl.
  assert (Happ : forall xs ys, sigma (xs ++ ys) = sigma xs + sigma ys).
  { intros xs ys. induction xs as [|x xs IH]; simpl; lia. }
  rewrite Happ.
  destruct (String.eqb (medicine e) med); simpl; lia.
Qed.

Lemma insert_log_entry_stored (log : list LogEntry) (med : string)
    (quantity now : Z) :
  INT64_MIN <= quantity <= INT64_MAX ->
  insert_log_entry log med quantity now
  = Return (insert_one log (mkLogEntry med quantity (bson_datetime now))).
Proof.
  intros [Hlo Hhi]. unfold insert_log_entry, bson_int.
  apply Z.leb_le in Hlo, Hhi. now rewrite Hlo, Hhi.
Qed.

Lemma insert_log_entry_overflow (log : list LogEntry) (med : string)
    (quantity now : Z) :
  quantity < INT64_MIN \/ INT64_MAX < quantity ->
  insert_log_entry log med quantity now = Raises OverflowError.
Proof.
  intros H. unfold insert_log_entry, bson_int.
  destruct (Z.leb_spec INT64_MIN quantity);
    destruct (Z.leb_spec quantity INT64_MAX); simpl; try reflexivity; lia.
Qed.

Lemma bson_datetime_bounds (t : Z) : t - 1000 < bson_datetime t <= t.
Proof.
  unfold bson_datetime.
  pose proof (Z.div_mod t 1000 ltac:(lia)) as Hdm.
  pose proof (Z.mod_pos_bound t 1000 ltac:(lia)) as Hm. lia.
Qed.

(** X2. A usage that [log_usage] records is stored with the clock reading
    cut to the millisecond, never after the clock reading; it lowers the
    stock of the named medicine by exactly the quantity and leaves the
    stock of every other medicine as it was, and the response reports
    success. This holds for a quantity of at most 2^63 - 1. For a larger
    quantity the insertion raises [OverflowError]: no log entry is stored,
    but the threshold document of the medicine has been written by then.
    When the pattern does not match, nothing is written and the response
    reports failure. *)
Theorem log_usage_remaining :
  forall (db : Database) (now : Z) (med : string) (quantity : N),
    let db' := fst (log_usage db now (Some (med, quantity))) in
    (Z.of_N quantity <= INT64_MAX ->
     snd (log_usage db now (Some (med, quantity))) = Return true
     /\ db_log db'
        = (db_log db
           ++ [mkLogEntry med (Z.of_N quantity) (bson_datetime now)])%list
     /\ now - 1000 < bson_datetime now <= now
     /\ calculate_current_remaining (db_log db') med
        = calculate_current_remaining (db_log db) med - Z.of_N quantity
     /\ forall other, other <> med ->
          calculate_current_remaining (db_log db') other
          = calculate_current_remaining (db_log db) other)
    /\ (INT64_MAX < Z.of_N quantity ->
        snd (log_usage db now (Some (med, quantity))) = Raises OverflowError
        /\ db_log db' = db_log db
        /\ find_one (db_thresholds db') med <> None)
    /\ log_usage db now None = (db, Return false).
Proof.
  intros db now med quantity db'. subst db'.
  split; [|split; [|reflexivity]].
  - intros Hq. unfold log_usage. cbn [fst snd db_log].
    rewrite insert_log_entry_stored
      by (split; [unfold INT64_MIN; lia | exact Hq]).
    split; [reflexivity|]. split; [reflexivity|].
    split; [apply bson_datetime_bounds|].
    rewrite calculate_current_remaining_insert. simpl.
    rewrite String.eqb_refl. split; [reflexivity|].
    intros other Hneq. rewrite calculate_current_remaining_insert. simpl.
    destruct (String.eqb_spec med other); [congruence | reflexivity].
  - intros Hq. unfold log_usage. cbn [fst snd db_log db_thresholds].
    rewrite insert_log_entry_overflow by now right.
    split; [reflexivity|]. split; [reflexivity|].
    destruct (initialize_step (db_thresholds db) med 20)
      as (added & E & Hin & _).
    rewrite E. intros Hnone. apply find_one_None in Hnone. now apply Hnone.
Qed.

Lemma log_usage_remaining_witness :
  snd (log_usage (mkDatabase [] []) (example_now + 1234)
         (Some ("betadine"%string, (2 ^ 63)%N)))
  = Raises OverflowError
  /\ snd (log_usage (mkDatabase [] []) (example_now + 1234)
            (Some ("betadine"%string, 10%N)))
     = Return true.
Proof.
  destruct (log_usage_remaining (mkDatabase [] []) (example_now + 1234)
              "betadine" (2 ^ 63)%N) as (_ & Hbig & _).
  destruct (log_usage_remaining (mkDatabase [] []) (example_now + 1234)
              "betadine" 10%N) as (Hsmall & _ & _).
  split.
  - apply Hbig. vm_compute. reflexivity.
  - apply Hsmall. vm_compute. discriminate.
Defined.

(** X3. After a recorded usage the medicine has a threshold document, so
    the [/restock] and [/buy_list] routes list it: a document with
    threshold 20 is added only when the medicine had none, the documents
    already stored are kept unchanged, and a collection with one document
    per medicine keeps that property. *)
Theorem log_usage_thresholds :
  forall (db : Database) (now : Z) (med : string) (quantity : N),
    let th' := db_thresholds (fst (log_usage db now (Some (med, quantity)))) in
    find_one th' med <> None
    /\ (forall doc, find_one (db_thresholds db) med = Some doc ->
          th' = db_thresholds db)
    /\ (find_one (db_thresholds db) med = None ->
          th' = (db_thresholds db ++ [mkThresholdDoc med 20])%list)
    /\ (forall other doc, find_one (db_thresholds db) other = Some doc ->
          find_one th' other = Some doc)
    /\ (List.NoDup (map t_medicine (db_thresholds db)) ->
        List.NoDup (map t_medicine th')).
Proof.
  intros db now med quantity th'. subst th'.
  unfold log_usage. cbn [fst db_thresholds].
  destruct (initialize_step (db_thresholds db) med 20)
    as (added & E & Hin & Hnd).
  split; [|split; [|split; [|split]]].
  - rewrite E. intros Hnone. apply find_one_None in Hnone. now apply Hnone.
  - intros doc Hdoc. now rewrite Hdoc.
  - intros Hnone. now rewrite Hnone.
  - intros other doc Hdoc. rewrite E. now apply find_one_app_l.
  - intros H. rewrite E. now apply Hnd.
Qed.

Lemma log_usage_thresholds_witness :
  List.NoDup (map t_medicine
           (db_thresholds
              (fst (log_usage
                      (mkDatabase [] [mkThresholdDoc "betadine" 20])
                      example_now (Some ("lidocaine"%string, 5%N)))))).
Proof.
  destruct (log_usage_thresholds
              (mkDatabase [] [mkThresholdDoc "betadine" 20])
              example_now "lidocaine" 5%N) as (_ & _ & _ & _ & Hnd).
  apply Hnd. repeat constructor. intros [].
Defined.

(** X4. A POST to [restock_medicine] with a quantity whose opposite fits
    64 bits stores it with the clock reading cut to the millisecond: it
    raises the stock of the named medicine by exactly the quantity and
    leaves every other medicine's stock as it was. It writes no threshold
    document, so a medicine that had none is still not listed by the
    routes that read the thresholds, and the medicines handed to the
    template are those of the threshold documents. When the opposite of
    the quantity does not fit 64 bits the insertion raises
    [OverflowError] and the database is left as it was. A GET leaves the
    database as it is. *)
Theorem restock_medicine_remaining :
  forall (db : Database) (now : Z) (med : string) (quantity : Z),
    let db' := fst (restock_medicine db now (Some (med, quantity))) in
    (INT64_MIN <= - quantity <= INT64_MAX ->
     snd (restock_medicine db now (Some (med, quantity)))
       = Return (map t_medicine (db_thresholds db))
     /\ db_log db'
        = (db_log db ++ [mkLogEntry med (- quantity) (bson_datetime now)])%list
     /\ calculate_current_remaining (db_log db') med
        = calculate_current_remaining (db_log db) med + quantity
     /\ (forall other, other <> med ->
           calculate_current_remaining (db_log db') other
           = calculate_current_remaining (db_log db) other)
     /\ db_thresholds db' = db_thresholds db)
    /\ (- quantity < INT64_MIN \/ INT64_MAX < - quantity ->
        snd (restock_medicine db now (Some (med, quantity)))
          = Raises OverflowError
        /\ db_log db' = db_log db
        /\ db_thresholds db' = db_thresholds db)
    /\ restock_medicine db now None
       = (db, Return (map t_medicine (db_thresholds db))).
Proof.
  intros db now med quantity db'. subst db'.
  split; [|split; [|reflexivity]].
  - intros Hq. unfold restock_medicine. cbn [fst snd db_log db_thresholds].
    rewrite insert_log_entry_stored by exact Hq.
    split; [reflexivity|]. split; [reflexivity|].
    rewrite calculate_current_remaining_insert. simpl.
    rewrite String.eqb_refl. split; [lia|]. split; [|reflexivity].
    intros other Hneq. rewrite calculate_current_remaining_insert. simpl.
    destruct (String.eqb_spec med other); [congruence | reflexivity].
  - intros Hq. unfold restock_medicine. cbn [fst snd db_log db_thresholds].
    rewrite insert_log_entry_overflow by exact Hq.
    repeat split.
Qed.

Lemma restock_medicine_remaining_witness :
  calculate_current_remaining
    (db_log (fst (restock_medicine (mkDatabase example_log []) example_now
                    (Some ("betadine"%string, 50))))) "betadine"
  = 60
  /\ snd (restock_medicine (mkDatabase example_log []) example_now
            (Some ("betadine"%string, 2 ^ 63 + 1)))
     = Raises OverflowError.
Proof.
  destruct (restock_medicine_remaining (mkDatabase example_log [])
              example_now "betadine" 50) as (Hok & _ & _).
  destruct (restock_medicine_remaining (mkDatabase example_log [])
              example_now "betadine" (2 ^ 63 + 1)) as (_ & Hbig & _).
  split.
  - destruct Hok as (_ & _ & Hrem & _).
    + vm_compute. split; discriminate.
    + rewrite Hrem. reflexivity.
  - apply Hbig. left. vm_compute. reflexivity.
Defined.

(** X5. A usage of at most 2^63 - 1 that is logged and then restocked by
    the same quantity leaves the stock of every medicine where it was. *)
Theorem log_usage_restock_round_trip :
  forall (db : Database) (t1 t2 : Z) (med : string) (quantity : N)
         (any : string),
    Z.of_N quantity <= INT64_MAX ->
    let db1 := fst (log_usage db t1 (Some (med, quantity))) in
    let db2 := fst (restock_medicine db1 t2 (Some (med, Z.of_N quantity))) in
    calculate_current_remaining (db_log db2) any
    = calculate_current_remaining (db_log db) any.
Proof.
  intros db t1 t2 med quantity any Hq db1 db2. subst db1 db2.
  unfold restock_medicine, log_usage. cbn [fst snd db_log db_thresholds].
  rewrite (insert_log_entry_stored (db_log db))
    by (split; [unfold INT64_MIN; lia | exact Hq]).
  rewrite insert_log_entry_stored
    by (unfold INT64_MIN, INT64_MAX in *; lia).
  rewrite !calculate_current_remaining_insert. simpl.
  destruct (String.eqb med any); lia.
Qed.

Lemma log_usage_restock_round_trip_witness :
  calculate_current_remaining
    (db_log
       (fst (restock_medicine
               (fst (log_usage (mkDatabase example_log []) example_now
                       (Some ("betadine"%string, 7%N))))
               (example_now + 5) (Some ("betadine"%string, 7)))))
    "betadine"
  = calculate_current_remaining example_log "betadine".
Proof.
  apply (log_usage_restock_round_trip (mkDatabase example_log [])
           example_now (example_now + 5) "betadine" 7%N "betadine").
  vm_compute. discriminate.
Defined.

Lemma usage_entries_insert (log : list LogEntry) (e : LogEntry)
    (med : string) :
  usage_entries (insert_one log e) med
  = (usage_entries log med
     ++ if String.eqb (medicine e) med && (0 <? quantity e) then [e] else [])%list.
Proof.
  unfold usage_entries, insert_one. rewrite List.filter_app. simpl.
  now destruct (String.eqb (medicine e) med && (0 <? quantity e)).
Qed.

(** X6. A restock of a quantity that is not negative adds no usage: for
    every medicine the usage entries, the rows given to the seasonal
    model and the result of [predict_depletion] at any given stock are the
    same before and after. *)
Theorem restock_medicine_keeps_usage :
  forall (db : Database) (now : Z) (med : string) (quantity : Z),
    0 <= quantity ->
    let db' := fst (restock_medicine db now (Some (med, quantity))) in
    (forall m, usage_entries (db_log db') m = usage_entries (db_log db) m)
    /\ usage_data (db_log db') = usage_data (db_log db)
    /\ (forall t m current_remaining,
          predict_depletion (db_log db') t m current_remaining
          = predict_depletion (db_log db) t m current_remaining).
Proof.
  intros db now med quantity Hq db'. subst db'.
  unfold restock_medicine. cbn [fst db_log].
  assert (Hlog :
            match insert_log_entry (db_log db) med (- quantity) now with
            | Return log => log
            | Raises _ => db_log db
            end = db_log db
            \/ match insert_log_entry (db_log db) med (- quantity) now with
               | Return log => log
               | Raises _ => db_log db
               end
               = insert_one (db_log db)
                   (mkLogEntry med (- quantity) (bson_datetime now))).
  { unfold insert_log_entry, bson_int.
    destruct ((INT64_MIN <=? - quantity) && (- quantity <=? INT64_MAX));
      simpl; auto. }
  destruct Hlog as [-> | ->]; [repeat split|].
  assert (Hu : forall m,
             usage_entries
               (insert_one (db_log db)
                  (mkLogEntry med (- quantity) (bson_datetime now))) m
             = usage_entries (db_log db) m).
  { intros m. rewrite usage_entries_insert. simpl.
    destruct (Z.ltb_spec 0 (- quantity)); [lia|].
    rewrite andb_false_r. apply app_nil_r. }
  split; [exact Hu|]. split.
  - unfold usage_data, insert_one. rewrite List.filter_app. simpl.
    destruct (Z.ltb_spec 0 (- quantity)); [lia|]. now rewrite app_nil_r.
  - intros t m current. unfold predict_depletion. now rewrite Hu.
Qed.

Lemma restock_medicine_keeps_usage_witness :
  usage_data
    (db_log (fst (restock_medicine (mkDatabase example_log []) example_now
                    (Some ("betadine"%string, 50)))))
  = usage_data example_log.
Proof.
  destruct (restock_medicine_keeps_usage (mkDatabase example_log [])
              example_now "betadine" 50) as (_ & H & _).
  - lia.
  - exact H.
Defined.

(** X7. The restock form does not reject a negative quantity: when its
    opposite is at most 2^63 - 1, the document it stores has a positive
    quantity and counts as a usage of the medicine, the last of its usage
    entries, stamped with the clock reading cut to the millisecond. *)
Theorem restock_medicine_negative_is_usage :
  forall (db : Database) (now : Z) (med : string) (quantity : Z),
    quantity < 0 ->
    - quantity <= INT64_MAX ->
    let db' := fst (restock_medicine db now (Some (med, quantity))) in
    usage_entries (db_log db') med
    = (usage_entries (db_log db) med
       ++ [mkLogEntry med (- quantity) (bson_datetime now)])%list.
Proof.
  intros db now med quantity Hq Hmax db'. subst db'.
  unfold restock_medicine. cbn [fst db_log].
  rewrite insert_log_entry_stored by (unfold INT64_MIN; lia).
  rewrite usage_entries_insert. simpl. rewrite String.eqb_refl.
  destruct (Z.ltb_spec 0 (- quantity)); [reflexivity | lia].
Qed.

Lemma restock_medicine_negative_is_usage_witness :
  usage_entries
    (db_log (fst (restock_medicine (mkDatabase [] []) (example_now + 1234)
                    (Some ("betadine"%string, -5))))) "betadine"
  = [mkLogEntry "betadine" 5 (example_now + 1000)].
Proof.
  apply (restock_medicine_negative_is_usage (mkDatabase [] [])
           (example_now + 1234) "betadine" (-5)).
  - lia.
  - vm_compute. discriminate.
Defined.

(* ------------------------------------------------------------------ *)
(** ** Linear depletion estimator: further results                     *)
(* ------------------------------------------------------------------ *)

Lemma daily_avg_usage_returns (entries : list LogEntry) (now : Z) :
  entries <> [] ->
  exists first,
    first_usage_date entries = Return first
    /\ (exists x, In x entries /\ timestamp x = first)
    /\ (forall e, In e entries -> first <= timestamp e)
    /\ daily_avg_usage entries now
       = Return (inject_Z (sigma (map quantity entries))
                 / inject_Z (time_span_days now first))%Q.
Proof.
  intros Hne.
  destruct (first_usage_date_spec _ Hne) as (first & Hfirst & Hmem & Hmin).
  exists first. repeat split; try assumption.
  unfold daily_avg_usage. rewrite Hfirst. cbn [bind].
  rewrite truediv_nonzero by apply time_span_days_nonzero.
  rewrite py_sum_sigma.
  rewrite (sigma_Permutation _ (map quantity entries))
    by apply Permutation_map, sort_by_timestamp_Permutation.
  reflexivity.
Qed.

Lemma project_depletion_raises (now current : Z) (avg : Q) (e : exn) :
  project_depletion now current avg = Raises e -> e = OverflowError.
Proof.
  unfold project_depletion.
  destruct (Qltb 0 avg) eqn:Hpos; [|discriminate].
  apply Qltb_lt in Hpos. rewrite fdiv_pos by exact Hpos. cbn [bind].
  destruct (Qltb (inject_Z current / avg) 0); [discriminate|].
  unfold timedelta_days.
  match goal with |- context [if ?c then _ else _] => destruct c end;
    cbn [bind]; [|intros H; now inversion H].
  unfold datetime_add.
  match goal with |- context [if ?c then _ else _] => destruct c end;
    cbn [bind]; [discriminate | intros H; now inversion H].
Qed.

(** X8. The only exception [predict_depletion] can raise is the
    [OverflowError] of the date arithmetic: the division by the time span
    never divides by zero and the first element of the sorted usage
    entries always exists. *)
Theorem predict_depletion_raises_only_overflow :
  forall (log : list LogEntry) (now : Z) (med : string)
         (current_remaining : Z) (e : exn),
    predict_depletion log now med current_remaining = Raises e ->
    e = OverflowError.
Proof.
  intros log now med current e.
  destruct (usage_entries log med) as [|x rest] eqn:E.
  - unfold predict_depletion. rewrite E. discriminate.
  - rewrite predict_depletion_nonempty by (rewrite E; discriminate).
    destruct (daily_avg_usage_returns (usage_entries log med) now)
      as (first & _ & _ & _ & Havg); [rewrite E; discriminate|].
    rewrite Havg. cbn [bind]. apply project_depletion_raises.
Qed.

Lemma predict_depletion_raises_only_overflow_witness :
  exists e,
    predict_depletion
      [mkLogEntry "betadine" 1 (example_now - 100 * US_PER_DAY)]
      example_now "betadine" 30099 = Raises e
    /\ e = OverflowError.
Proof.
  exists OverflowError.
  assert (H : predict_depletion
                [mkLogEntry "betadine" 1 (example_now - 100 * US_PER_DAY)]
                example_now "betadine" 30099 = Raises OverflowError)
    by (vm_compute; reflexivity).
  split; [exact H|].
  exact (predict_depletion_raises_only_overflow _ _ _ _ _ H).
Defined.

Lemma filter_Permutation {A : Type} (f : A -> bool) (l l' : list A) :
  Permutation l l' -> Permutation (List.filter f l) (List.filter f l').
Proof.
  induction 1 as [| x l l' _ IH | x y l | l l' l'' _ IH1 _ IH2]; simpl.
  - constructor.
  - destruct (f x); [constructor|]; exact IH.
  - destruct (f x), (f y); try apply Permutation_refl. apply perm_swap.
  - eapply Permutation_trans; eassumption.
Qed.

Lemma daily_avg_usage_Permutation (l l' : list LogEntry) (now : Z) :
  l <> [] -> Permutation l l' ->
  daily_avg_usage l now = daily_avg_usage l' now.
Proof.
  intros Hne Hperm.
  assert (Hne' : l' <> []).
  { intros ->. apply Permutation_sym, Permutation_nil in Hperm. congruence. }
  destruct (daily_avg_usage_returns l now Hne)
    as (f & _ & (x & Hx & Hxf) & Hmin & ->).
  destruct (daily_avg_usage_returns l' now Hne')
    as (f' & _ & (x' & Hx' & Hxf') & Hmin' & ->).
  assert (Hff : f = f').
  { apply Z.le_antisymm.
    - rewrite <- Hxf'. apply Hmin.
      now apply (Permutation_in _ (Permutation_sym Hperm)).
    - rewrite <- Hxf. apply Hmin'. now apply (Permutation_in _ Hperm). }
  rewrite Hff.
  now rewrite (sigma_Permutation _ _ (Permutation_map quantity Hperm)).
Qed.

(** X9. [predict_depletion] does not depend on the order in which the
    collection yields its documents: two logs that are permutations of
    one another give the same result, exceptions included. *)
Theorem predict_depletion_Permutation :
  forall (log log' : list LogEntry) (now : Z) (med : string)
         (current_remaining : Z),
    Permutation log log' ->
    predict_depletion log now med current_remaining
    = predict_depletion log' now med current_remaining.
Proof.
  intros log log' now med current Hperm.
  assert (Hu : Permutation (usage_entries log med) (usage_entries log' med))
    by now apply filter_Permutation.
  destruct (usage_entries log med) as [|x rest] eqn:E.
  - apply Permutation_nil in Hu. unfold predict_depletion. now rewrite E, Hu.
  - assert (Hne : usage_entries log med <> []) by (rewrite E; discriminate).
    assert (Hne' : usage_entries log' med <> []).
    { intros H. rewrite H in Hu.
      apply Permutation_sym, Permutation_nil in Hu. discriminate. }
    rewrite <- E in Hu.
    rewrite !predict_depletion_nonempty by assumption.
    now rewrite (daily_avg_usage_Permutation _ _ now Hne Hu).
Qed.

Lemma predict_depletion_Permutation_witness :
  predict_depletion
    [mkLogEntry "betadine" 10 5; mkLogEntry "betadine" 10 0] example_now
    "betadine" 80
  = predict_depletion
      [mkLogEntry "betadine" 10 0; mkLogEntry "betadine" 10 5] example_now
      "betadine" 80.
Proof.
  apply predict_depletion_Permutation. apply perm_swap.
Defined.

Lemma Qdiv_pos_neg (a b : Z) :
  0 < a -> b < 0 -> (inject_Z a / inject_Z b <= 0)%Q.
Proof.
  intros Ha Hb. destruct b as [|p|p]; try lia.
  unfold Qdiv, Qmult, Qinv, Qle, inject_Z. simpl. lia.
Qed.

(** X10. When every usage of the medicine is stamped after the clock
    reading, the elapsed whole days are negative, the daily average is not
    positive, and [predict_depletion] returns the status
    "N/A - No average usage or sufficient stock" for any stock. *)
Theorem predict_depletion_future_usage :
  forall (log : list LogEntry) (now : Z) (med : string)
         (current_remaining : Z),
    usage_entries log med <> [] ->
    (forall e, In e (usage_entries log med) -> now < timestamp e) ->
    predict_depletion log now med current_remaining = Return NoAverageUsage.
Proof.
  intros log now med current Hne Hfuture.
  rewrite predict_depletion_nonempty by exact Hne.
  destruct (daily_avg_usage_returns (usage_entries log med) now Hne)
    as (first & _ & (x & Hx & Hxf) & _ & ->).
  cbn [bind].
  assert (Hlt : now < first) by (rewrite <- Hxf; now apply Hfuture).
  assert (Hspan : time_span_days now first < 0).
  { unfold time_span_days, days_between.
    assert ((now - first) / US_PER_DAY < 0)
      by (apply Z.div_lt_upper_bound; [reflexivity | lia]).
    destruct (Z.eqb_spec ((now - first) / US_PER_DAY) 0); lia. }
  assert (Htotal : 0 < sigma (map quantity (usage_entries log med))).
  { apply sigma_pos.
    - destruct (usage_entries log med); [congruence | discriminate].
    - apply List.Forall_forall. intros q Hq. apply in_map_iff in Hq.
      destruct Hq as (e & <- & He). now apply usage_entries_In in He. }
  unfold project_depletion.
  assert (H0 : Qltb 0 (inject_Z (sigma (map quantity (usage_entries log med)))
                       / inject_Z (time_span_days now first)) = false).
  { apply Qltb_ge. now apply Qdiv_pos_neg. }
  now rewrite H0.
Qed.

Lemma predict_depletion_future_usage_witness :
  predict_depletion [mkLogEntry "betadine" 10 (example_now + 1)] example_now
    "betadine" 90 = Return NoAverageUsage.
Proof.
  apply predict_depletion_future_usage.
  - discriminate.
  - intros e [<-|[]]. simpl. lia.
Defined.

Lemma round_half_even_nonneg (x : Q) : (0 <= x)%Q -> 0 <= round_half_even x.
Proof.
  intros H. pose proof (round_half_even_bounds x) as B.
  pose proof (Qfloor_resp_le _ _ H) as F. change (Qfloor 0) with 0 in F. lia.
Qed.

(** X11. A date returned by [predict_depletion] is never before the day
    of the clock reading. *)
Theorem predict_depletion_not_in_past :
  forall (log : list LogEntry) (now : Z) (med : string)
         (current_remaining day : Z),
    predict_depletion log now med current_remaining
      = Return (DepletionDate day) ->
    date_of now <= day.
Proof.
  intros log now med current day. unfold predict_depletion.
  destruct (usage_entries log med) as [|x rest]; [discriminate|].
  destruct (daily_avg_usage (x :: rest) now) as [avg|e]; [|discriminate].
  cbn [bind]. intros H. apply project_depletion_date_inv in H.
  destruct H as (Hpos & Hnn & ->). apply date_of_mono.
  assert (0 <= round_half_even
                 (inject_Z current / avg * inject_Z US_PER_DAY)%Q).
  { apply round_half_even_nonneg. apply Qmult_le_0_compat; [exact Hnn|].
    now apply Qlt_le_weak, inject_Z_pos. }
  lia.
Qed.

Lemma predict_depletion_not_in_past_witness : date_of example_now <= 739925.
Proof.
  apply (predict_depletion_not_in_past
           [mkLogEntry "betadine" 20 example_now] example_now "betadine" 45).
  vm_compute. reflexivity.
Defined.

Lemma round_half_even_Qeq (x y : Q) :
  (x == y)%Q -> round_half_even x = round_half_even y.
Proof.
  intros H. apply Z.le_antisymm; apply round_half_even_mono;
    rewrite H; apply Qle_refl.
Qed.

(** X12. With a stock of exactly 0, a usage entry and no usage stamped
    after the clock reading, [predict_depletion] returns the date of the
    clock reading itself: it is not reported as "Already Depleted". *)
Theorem predict_depletion_zero_stock :
  forall (log : list LogEntry) (now : Z) (med : string),
    usage_entries log med <> [] ->
    (forall e, In e (usage_entries log med) -> timestamp e <= now) ->
    0 <= now < MAX_ORDINAL * US_PER_DAY ->
    predict_depletion log now med 0 = Return (DepletionDate (date_of now)).
Proof.
  intros log now med Hne Hpast Hnow.
  destruct (predict_depletion_positive_trend log now med Hne Hpast)
    as (avg & Havg & Hpos & _).
  rewrite predict_depletion_nonempty by exact Hne.
  rewrite Havg. cbn [bind]. unfold project_depletion.
  assert (H0 : Qltb 0 avg = true) by now apply Qltb_lt.
  rewrite H0, fdiv_pos by exact Hpos. cbn [bind].
  assert (Hz : (inject_Z 0 / avg == 0)%Q) by (unfold Qdiv; apply Qmult_0_l).
  assert (Hge : Qltb (inject_Z 0 / avg) 0 = false).
  { apply Qltb_ge. rewrite Hz. apply Qle_refl. }
  rewrite Hge. unfold timedelta_days.
  assert (Hr : round_half_even (inject_Z 0 / avg * inject_Z US_PER_DAY)%Q = 0).
  { rewrite (round_half_even_Qeq _ 0); [reflexivity|].
    rewrite Hz. apply Qmult_0_l. }
  rewrite Hr. cbn [bind]. simpl. unfold datetime_add.
  rewrite Z.add_0_r.
  destruct (Z.leb_spec 0 now); [|lia].
  destruct (Z.ltb_spec now (MAX_ORDINAL * US_PER_DAY)); [|lia].
  reflexivity.
Qed.

Lemma predict_depletion_zero_stock_witness :
  predict_depletion [mkLogEntry "betadine" 100 (example_now - 1)] example_now
    "betadine" 0 = Return (DepletionDate (date_of example_now)).
Proof.
  apply predict_depletion_zero_stock.
  - discriminate.
  - intros e [<-|[]]. simpl. lia.
  - vm_compute. split; [discriminate | reflexivity].
Defined.

(* ------------------------------------------------------------------ *)
(** ** The [/restock] route                                            *)
(* ------------------------------------------------------------------ *)

Lemma restock_loop_raises (log : list LogEntry) (now : Z)
    (th : list ThresholdDoc) (e : exn) :
  fold_left (restock_step log now) th (Raises e) = Raises e.
Proof. induction th as [|d th IH]; [reflexivity | exact IH]. Qed.

Lemma restock_step_Return (log : list LogEntry) (now : Z)
    (summary : gmap string (Z * DepletionEstimate)) (doc : ThresholdDoc) :
  restock_step log now (Return summary) doc
  = match predict_depletion log now (t_medicine doc)
            (calculate_current_remaining log (t_medicine doc)) with
    | Return d =>
        Return (<[t_medicine doc :=
                   (calculate_current_remaining log (t_medicine doc), d)]>
                  summary)
    | Raises e => Raises e
    end.
Proof. reflexivity. Qed.

Lemma restock_loop_returns (log : list LogEntry) (now : Z)
    (th : list ThresholdDoc) :
  forall summary : gmap string (Z * DepletionEstimate),
    (forall doc, In doc th ->
       exists d, predict_depletion log now (t_medicine doc)
                   (calculate_current_remaining log (t_medicine doc))
                 = Return d) ->
    exists summary',
      fold_left (restock_step log now) th (Return summary) = Return summary'
      /\ forall med,
           summary' !! med
           = if existsb (String.eqb med) (map t_medicine th)
             then summary_entry log now med
             else summary !! med.
Proof.
  induction th as [|doc th IH]; intros summary Hall.
  - exists summary. split; [reflexivity | intros med; reflexivity].
  - destruct (Hall doc (or_introl eq_refl)) as (d & Hd).
    cbn [fold_left]. rewrite restock_step_Return, Hd.
    destruct (IH (<[t_medicine doc :=
                      (calculate_current_remaining log (t_medicine doc), d)]>
                    summary))
      as (summary' & Hfold & Hlookup).
    { intros doc' Hin. apply Hall. now right. }
    exists summary'. split; [exact Hfold|].
    intros med. rewrite Hlookup. simpl existsb.
    destruct (existsb (String.eqb med) (map t_medicine th)).
    + now rewrite orb_true_r.
    + rewrite orb_false_r.
      destruct (String.eqb_spec med (t_medicine doc)) as [->|Hneq].
      * rewrite lookup_insert_eq. unfold summary_entry. now rewrite Hd.
      * apply lookup_insert_ne. congruence.
Qed.

Lemma restock_loop_fails (log : list LogEntry) (now : Z)
    (th : list ThresholdDoc) (doc : ThresholdDoc) (e : exn) :
  In doc th ->
  predict_depletion log now (t_medicine doc)
    (calculate_current_remaining log (t_medicine doc)) = Raises e ->
  forall acc, exists e', fold_left (restock_step log now) th acc = Raises e'.
Proof.
  induction th as [|d th IH]; intros Hin Hraise acc; [destruct Hin|].
  cbn [fold_left]. destruct acc as [summary|e0].
  - destruct Hin as [->|Hin].
    + rewrite restock_step_Return, Hraise.
      exists e. apply restock_loop_raises.
    + now apply IH.
  - simpl. exists e0. apply restock_loop_raises.
Qed.

(** X13. When [predict_depletion] returns for every medicine that has a
    threshold document, the [/restock] route returns a summary that holds,
    for exactly those medicines, the stock of
    [calculate_current_remaining] and the estimate of [predict_depletion]
    at that stock. *)
Theorem restock_summary :
  forall (db : Database) (now : Z),
    (forall doc, In doc (db_thresholds db) ->
       exists d, predict_depletion (db_log db) now (t_medicine doc)
                   (calculate_current_remaining (db_log db) (t_medicine doc))
                 = Return d) ->
    exists summary,
      restock db now = Return summary
      /\ (forall doc d,
            In doc (db_thresholds db) ->
            predict_depletion (db_log db) now (t_medicine doc)
              (calculate_current_remaining (db_log db) (t_medicine doc))
            = Return d ->
            summary !! t_medicine doc
            = Some (calculate_current_remaining (db_log db) (t_medicine doc),
                    d))
      /\ (forall med, ~ In med (map t_medicine (db_thresholds db)) ->
            summary !! med = None).
Proof.
  intros db now Hall.
  destruct (restock_loop_returns (db_log db) now (db_thresholds db) ∅ Hall)
    as (summary & Hfold & Hlookup).
  exists summary. split; [exact Hfold|]. split.
  - intros doc d Hin Hd. rewrite Hlookup.
    assert (Hex : existsb (String.eqb (t_medicine doc))
                    (map t_medicine (db_thresholds db)) = true).
    { apply existsb_eqb_In, in_map, Hin. }
    rewrite Hex. unfold summary_entry. now rewrite Hd.
  - intros med Hnot. rewrite Hlookup.
    destruct (existsb (String.eqb med) (map t_medicine (db_thresholds db)))
      eqn:Hex.
    + apply existsb_eqb_In in Hex. contradiction.
    + apply lookup_empty.
Qed.

Lemma restock_summary_witness :
  exists summary,
    restock (mkDatabase [mkLogEntry "betadine" (-50) 7]
               [mkThresholdDoc "betadine" 20]) example_now
    = Return summary
    /\ summary !! "betadine"%string = Some (150, NoUsageData).
Proof.
  destruct (restock_summary
              (mkDatabase [mkLogEntry "betadine" (-50) 7]
                 [mkThresholdDoc "betadine" 20]) example_now)
    as (summary & Hr & Hin & _).
  - intros doc [<-|[]]. eexists. reflexivity.
  - exists summary. split; [exact Hr|].
    apply (Hin (mkThresholdDoc "betadine" 20) NoUsageData).
    + now left.
    + reflexivity.
Defined.

(** X14. The [/restock] route has no handler around [predict_depletion]:
    when the estimate of one listed medicine raises, the route raises and
    renders no summary, for any medicine. *)
Theorem restock_not_isolated :
  forall (db : Database) (now : Z) (doc : ThresholdDoc) (e : exn),
    In doc (db_thresholds db) ->
    predict_depletion (db_log db) now (t_medicine doc)
      (calculate_current_remaining (db_log db) (t_medicine doc)) = Raises e ->
    exists e', restock db now = Raises e'.
Proof.
  intros db now doc e Hin Hraise. unfold restock.
  now apply (restock_loop_fails _ _ _ doc e).
Qed.

Lemma restock_not_isolated_witness :
  exists e',
    restock
      (mkDatabase
         [mkLogEntry "betadine" 1 (example_now - 100 * US_PER_DAY);
          mkLogEntry "betadine" (-30000) (example_now - 50 * US_PER_DAY);
          mkLogEntry "lidocaine" 5 (example_now - US_PER_DAY)]
         [mkThresholdDoc "lidocaine" 20; mkThresholdDoc "betadine" 20])
      example_now
    = Raises e'.
Proof.
  apply (restock_not_isolated _ _ (mkThresholdDoc "betadine" 20)
           OverflowError).
  - right. now left.
  - vm_compute. reflexivity.
Defined.

(* ------------------------------------------------------------------ *)
(** ** The [/buy_list] route                                           *)
(* ------------------------------------------------------------------ *)

Lemma insert_by_key_Permutation {A : Type} (leb : A -> A -> bool) (x : A)
    (l : list A) :
  Permutation (insert_by_key leb x l) (x :: l).
Proof.
  induction l as [|y l IH]; simpl.
  - apply Permutation_refl.
  - destruct (leb x y); [apply Permutation_refl|].
    eapply Permutation_trans; [apply perm_skip, IH | apply perm_swap].
Qed.

Lemma sort_by_key_Permutation {A : Type} (leb : A -> A -> bool)
    (l : list A) :
  Permutation (sort_by_key leb l) l.
Proof.
  induction l as [|x l IH]; simpl; [constructor|].
  eapply Permutation_trans; [apply insert_by_key_Permutation|].
  now apply perm_skip.
Qed.

Section SortByKey.

Variable A : Type.
Variable leb : A -> A -> bool.
Hypothesis leb_total : forall x y, leb x y = false -> leb y x = true.
Hypothesis leb_trans :
  forall x y z, leb x y = true -> leb y z = true -> leb x z = true.

Lemma insert_by_key_sorted (x : A) (l : list A) :
  StronglySorted (fun a b => leb a b = true) l ->
  StronglySorted (fun a b => leb a b = true) (insert_by_key leb x l).
Proof.
  induction 1 as [|y l Hl IH Hy]; simpl.
  - repeat constructor.
  - destruct (leb x y) eqn:E.
    + constructor; [now constructor|].
      constructor; [exact E|].
      rewrite List.Forall_forall in Hy |- *.
      intros z Hz. apply (leb_trans x y z E). now apply Hy.
    + constructor; [exact IH|].
      rewrite List.Forall_forall in Hy |- *.
      intros z Hz.
      apply (Permutation_in _ (insert_by_key_Permutation leb x l)) in Hz.
      destruct Hz as [<-|Hz]; [now apply leb_total | now apply Hy].
Qed.

Lemma sort_by_key_sorted (l : list A) :
  StronglySorted (fun a b => leb a b = true) (sort_by_key leb l).
Proof.
  induction l as [|x l IH]; simpl; [constructor|].
  now apply insert_by_key_sorted.
Qed.

End SortByKey.

Lemma pair_leb_buy_le (x y : BuyItem) :
  pair_leb (buy_key x) (buy_key y) = true <-> buy_le x y.
Proof.
  unfold pair_leb, buy_le, buy_key. simpl.
  rewrite orb_true_iff, andb_true_iff, Z.ltb_lt, Z.eqb_eq, Z.leb_le.
  reflexivity.
Qed.

Lemma item_color_spec (r : Z) :
  match item_color r with
  | Some red => r <= 29
  | Some orange => r = 30
  | Some yellow => 31 <= r <= 40
  | None => 40 < r
  end.
Proof.
  unfold item_color, RED_THRESHOLD, ORANGE_THRESHOLD, YELLOW_THRESHOLD.
  destruct (Z.leb_spec r 29); [lia|].
  destruct (Z.leb_spec r 30); [lia|].
  destruct (Z.leb_spec r 40); lia.
Qed.

Lemma buy_candidates_In (db : Database) (item : BuyItem) :
  In item (buy_candidates db) <->
  In (b_medicine item) (map t_medicine (db_thresholds db))
  /\ b_remaining item
     = calculate_current_remaining (db_log db) (b_medicine item)
  /\ item_color (b_remaining item) = Some (b_color item).
Proof.
  unfold buy_candidates. rewrite in_flat_map. split.
  - intros (doc & Hdoc & Hin).
    destruct (item_color
                (calculate_current_remaining (db_log db) (t_medicine doc)))
      as [c|] eqn:E; [|destruct Hin].
    destruct Hin as [<-|[]]. simpl. repeat split; [|exact E].
    now apply in_map.
  - intros (Hmed & Hrem & Hcol). apply in_map_iff in Hmed.
    destruct Hmed as (doc & Hdoc & Hin). exists doc. split; [exact Hin|].
    rewrite Hdoc, <- Hrem, Hcol. left.
    destruct item as [m r c]. simpl in *. now subst.
Qed.

(** X15. The buy list holds exactly the medicines with a threshold
    document whose stock is at most 40, each with its stock from
    [calculate_current_remaining]. The colour is red for a stock of at
    most 29, orange for a stock of exactly 30 and yellow for a stock from
    31 to 40; a medicine with a stock above 40 is not listed. *)
Theorem buy_list_contents :
  forall (db : Database),
    (forall item, In item (buy_list db) ->
       In (b_medicine item) (map t_medicine (db_thresholds db))
       /\ b_remaining item
          = calculate_current_remaining (db_log db) (b_medicine item)
       /\ match b_color item with
          | red => b_remaining item <= 29
          | orange => b_remaining item = 30
          | yellow => 31 <= b_remaining item <= 40
          end)
    /\ (forall doc, In doc (db_thresholds db) ->
          (calculate_current_remaining (db_log db) (t_medicine doc) <= 40 <->
           exists item, In item (buy_list db)
                        /\ b_medicine item = t_medicine doc)).
Proof.
  intros db.
  assert (Hperm : forall item,
             In item (buy_list db) <-> In item (buy_candidates db)).
  { intros item. unfold buy_list. split; apply Permutation_in;
      [|apply Permutation_sym]; apply sort_by_key_Permutation. }
  split.
  - intros item Hin. apply Hperm, buy_candidates_In in Hin.
    destruct Hin as (Hmed & Hrem & Hcol). repeat split; try assumption.
    pose proof (item_color_spec (b_remaining item)) as Hspec.
    rewrite Hcol in Hspec. exact Hspec.
  - intros doc Hdoc. split.
    + intros Hle.
      pose proof (item_color_spec
                    (calculate_current_remaining (db_log db) (t_medicine doc)))
        as Hspec.
      destruct (item_color
                  (calculate_current_remaining (db_log db) (t_medicine doc)))
        as [c|] eqn:E; [|lia].
      exists (mkBuyItem (t_medicine doc)
                (calculate_current_remaining (db_log db) (t_medicine doc)) c).
      split; [|reflexivity]. apply Hperm, buy_candidates_In. simpl.
      repeat split; [now apply in_map | exact E].
    + intros (item & Hin & Hmed). apply Hperm, buy_candidates_In in Hin.
      destruct Hin as (_ & Hrem & Hcol).
      pose proof (item_color_spec (b_remaining item)) as Hspec.
      rewrite Hcol in Hspec. rewrite <- Hmed, <- Hrem.
      destruct (b_color item); lia.
Qed.

(** X16. The buy list is ordered by urgency: every item comes before the
    items of a later colour (red, then orange, then yellow) and, within
    one colour, before the items with a larger stock. *)
Theorem buy_list_sorted :
  forall db : Database, StronglySorted buy_le (buy_list db).
Proof.
  intros db. unfold buy_list.
  assert (Hs : StronglySorted
                 (fun a b => pair_leb (buy_key a) (buy_key b) = true)
                 (sort_by_key (fun x y => pair_leb (buy_key x) (buy_key y))
                    (buy_candidates db))).
  { apply sort_by_key_sorted.
    - intros x y H. apply pair_leb_buy_le.
      assert (Hn : ~ buy_le x y).
      { intros Hle. apply pair_leb_buy_le in Hle. congruence. }
      unfold buy_le in *. lia.
    - intros x y z Hxy Hyz. apply pair_leb_buy_le in Hxy, Hyz.
      apply pair_leb_buy_le. unfold buy_le in *. lia. }
  induction Hs as [|x l Hl IH Hx]; constructor; [exact IH|].
  rewrite List.Forall_forall in Hx |- *.
  intros y Hy. apply pair_leb_buy_le. now apply Hx.
Qed.

Lemma buy_candidates_medicines (db : Database) :
  List.NoDup (map t_medicine (db_thresholds db)) ->
  List.NoDup (map b_medicine (buy_candidates db)).
Proof.
  unfold buy_candidates.
  induction (db_thresholds db) as [|doc th IH]; simpl; intros Hnd.
  - constructor.
  - inversion Hnd as [|? ? Hnot Hth]; subst.
    destruct (item_color
                (calculate_current_remaining (db_log db) (t_medicine doc)));
      simpl; [|now apply IH].
    constructor; [|now apply IH].
    intros Hin. apply Hnot. apply in_map_iff in Hin.
    destruct Hin as (item & Hmed & Hitem). rewrite <- Hmed.
    apply in_flat_map in Hitem. destruct Hitem as (d & Hd & Hin).
    destruct (item_color
                (calculate_current_remaining (db_log db) (t_medicine d)));
      [|destruct Hin].
    destruct Hin as [<-|[]]. simpl. now apply in_map.
Qed.

(** X17. When no two threshold documents name the same medicine, which
    the routes that write the thresholds maintain, no medicine appears
    twice in the buy list. *)
Theorem buy_list_no_duplicates :
  forall db : Database,
    List.NoDup (map t_medicine (db_thresholds db)) ->
    List.NoDup (map b_medicine (buy_list db)).
Proof.
  intros db Hnd. unfold buy_list.
  eapply Permutation_NoDup.
  - apply Permutation_map, Permutation_sym, sort_by_key_Permutation.
  - now apply buy_candidates_medicines.
Qed.

Lemma buy_list_no_duplicates_witness :
  List.NoDup
    (map b_medicine
       (buy_list (mkDatabase example_log
                    [mkThresholdDoc "betadine" 20;
                     mkThresholdDoc "saline" 20]))).
Proof.
  apply buy_list_no_duplicates. simpl.
  repeat constructor; simpl; intuition discriminate.
Defined.

(* ------------------------------------------------------------------ *)
(** ** Seasonal forecast simulator: further results                    *)
(* ------------------------------------------------------------------ *)

(** X18. The keys of [stock_alerts]. When the log has no usage at all the
    route stores the single entry "info" and fits nothing. Otherwise a
    medicine has an alert exactly when it has a usage entry: a medicine
    that was only restocked, or never logged, has none. *)
Theorem forecast_keys :
  forall (prophet : list (Z * Z) -> outcome (list ForecastRow))
         (log : list LogEntry) (today : Z),
    (usage_data log = [] ->
     forecast prophet log today = ({["info"%string := NoUsageInfo]}, []))
    /\ (usage_data log <> [] ->
        forall med,
          (exists alert, fst (forecast prophet log today) !! med = Some alert)
          <-> usage_entries log med <> []).
Proof.
  intros prophet log today. split.
  - intros Hnil. unfold forecast. now rewrite Hnil.
  - intros Hne med. split.
    + intros (alert & Hlookup) Hnil.
      rewrite (forecast_lookup_unused prophet log today med Hnil) in Hlookup.
      destruct (usage_data log); [congruence | discriminate].
    + intros Hused. rewrite forecast_lookup_used by exact Hused. eauto.
Qed.

Lemma forecast_keys_witness :
  (exists alert,
     fst (forecast example_prophet example_log example_now) !! "saline"
     = Some alert)
  /\ ~ (exists alert,
         fst (forecast example_prophet example_log example_now) !! "aspirin"
         = Some alert).
Proof.
  destruct (forecast_keys example_prophet example_log example_now)
    as [_ Hkeys].
  split.
  - apply Hkeys; discriminate.
  - intros H. apply Hkeys in H; [|discriminate]. now apply H.
Defined.

(** X19. In a "needed in d days" alert of the route the number of days is
    never negative. *)
Theorem forecast_needed_in_nonneg :
  forall (prophet : list (Z * Z) -> outcome (list ForecastRow))
         (log : list LogEntry) (today : Z) (med : string) (d : Z),
    fst (forecast prophet log today) !! med = Some (NeededIn d) ->
    0 <= d.
Proof.
  intros prophet log today med d Hlookup.
  destruct (usage_entries log med) as [|x rest] eqn:E.
  - rewrite (forecast_lookup_unused prophet log today med E) in Hlookup.
    destruct (usage_data log); [|discriminate].
    destruct (String.eqb med "info"); discriminate.
  - rewrite forecast_lookup_used in Hlookup by (rewrite E; discriminate).
    unfold forecast_medicine, try_forecast in Hlookup.
    destruct (length (med_df (usage_data log) med) <? 2)%nat;
      [discriminate|].
    destruct (prophet (med_df (usage_data log) med)) as [rows|e];
      [|discriminate].
    cbn [bind fst] in Hlookup. unfold simulate in Hlookup.
    destruct (walk today _ (last14 rows)) as [day|]; [|discriminate].
    simpl in Hlookup. destruct (Z.leb_spec 0 day); [|discriminate].
    inversion Hlookup. now subst.
Qed.

Lemma forecast_needed_in_nonneg_witness : 0 <= 2.
Proof.
  apply (forecast_needed_in_nonneg example_prophet example_log example_now
           "betadine" 2).
  vm_compute. reflexivity.
Defined.


Lemma walk_None_mono (today : Z) (rows : list ForecastRow) :
  forall sim1 sim2 : Q,
    (sim1 <= sim2)%Q ->
    walk today sim1 rows = None -> walk today sim2 rows = None.
Proof.
  induction rows as [|row rest IH]; intros sim1 sim2 Hle; [reflexivity|].
  simpl. destruct (Qle_bool (sim1 - py_max (yhat row) 0) 0) eqn:E1;
    [discriminate|].
  assert (H1 : (0 < sim1 - py_max (yhat row) 0)%Q).
  { apply Qnot_le_lt. intros H. apply Qle_bool_iff in H. congruence. }
  assert (H2 : (0 < sim2 - py_max (yhat row) 0)%Q) by lra.
  rewrite (Qle_bool_false _ H2). apply IH. lra.
Qed.

(** X20. More stock never brings the depletion into the horizon: when a
    stock is "sufficient for now" for a forecast, every stock that is at
    least as large is "sufficient for now" for the same forecast. *)
Theorem simulate_sufficient_mono :
  forall (today : Z) (rows : list ForecastRow) (r1 r2 : Z),
    r1 <= r2 ->
    simulate today r1 rows = SufficientForNow ->
    simulate today r2 rows = SufficientForNow.
Proof.
  intros today rows r1 r2 Hle. unfold simulate.
  destruct (walk today (inject_Z r1) (last14 rows)) as [d|] eqn:W1.
  - simpl. destruct (0 <=? d); discriminate.
  - intros _.
    rewrite (walk_None_mono today (last14 rows) (inject_Z r1) (inject_Z r2));
      [reflexivity | now rewrite <- Zle_Qle | exact W1].
Qed.

Lemma simulate_sufficient_mono_witness :
  simulate example_now 500
    (flat_forecast (example_now + US_PER_DAY) (5 # 1) 14)
  = SufficientForNow.
Proof.
  apply (simulate_sufficient_mono example_now _ 71 500).
  - lia.
  - vm_compute. reflexivity.
Defined.


